(** * Weather app: a shallow embedding of [app.py] and its properties

    The Flask application of [app.py] is embedded as Rocq functions over an
    explicit world (the [weather_record] table, the outbound HTTP requests
    sent so far, the number of clock reads) and an environment of external
    services (geocoder, HTTP providers, clock, configuration).

    Python values that come from JSON are values of [json]; a Python [str]
    is a [string] whose elements stand for its characters; a Python [float]
    is an IEEE-754 datum ([spec_float]); a raised exception is the [Raise]
    branch of [result]. A row of the table holds what SQLite stores in each
    column, which is what the column type and the driver make of the Python
    value written to it. *)

From Stdlib Require Import ZArith List String Ascii Bool Arith Lia.
From Stdlib Require Import Floats.SpecFloat.
From Stdlib Require Import DecimalString.
From Stdlib Require Import Sorting.Permutation Sorting.Sorted.
Import ListNotations.

Local Open Scope string_scope.
Local Open Scope list_scope.
Local Open Scope Z_scope.

(** ** Python values *)

#[local] Set Warnings "-register-all".

(** A value obtained from [json.loads] / [request.get_json()] /
    [response.json()]. A dict keeps its insertion order. *)
Inductive json : Type :=
| JNull
| JBool (b : bool)
| JInt (z : Z)
| JFloat (f : spec_float)
| JStr (s : string)
| JList (l : list json)
| JDict (kvs : list (string * json)).

(** Exceptions, by class. [HTTPException c] is werkzeug's exception raised
    by [abort(c)]; [RequestException] is a transport or decoding failure of
    an outbound call; [DatabaseError] is the failure of a flush: the
    exception SQLAlchemy or the SQLite driver raises when a statement cannot
    be prepared or executed. *)
Inductive exn : Type :=
| KeyError (k : json)
| IndexError
| TypeError
| ValueError
| AttributeError
| OverflowError
| RequestException (msg : string)
| DatabaseError
| HTTPException (code : Z).

Inductive result (A : Type) : Type :=
| Ok (a : A)
| Raise (e : exn).
Arguments Ok {A} a.
Arguments Raise {A} e.

(** [bool(x)] for a float: every float is true except the two zeros. *)
Definition float_truthy (f : spec_float) : bool :=
  match f with
  | S754_zero _ => false
  | _ => true
  end.

(** [bool(x)] for a value that is [None] or a float. *)
Definition opt_float_truthy (x : option spec_float) : bool :=
  match x with
  | None => false
  | Some f => float_truthy f
  end.

(** [bool(x)] for a JSON value. *)
Definition truthy (v : json) : bool :=
  match v with
  | JNull => false
  | JBool b => b
  | JInt z => negb (z =? 0)
  | JFloat f => float_truthy f
  | JStr s => negb (s =? "")%string
  | JList l => match l with [] => false | _ => true end
  | JDict kvs => match kvs with [] => false | _ => true end
  end.

(** Lookup of a key in a dict. *)
Fixpoint dict_lookup (k : string) (kvs : list (string * json)) : option json :=
  match kvs with
  | [] => None
  | (k', v) :: rest => if (k =? k')%string then Some v else dict_lookup k rest
  end.

(** [data.get(key, default)]: only a dict has the method. *)
Definition py_get (data : json) (key : string) (default : json) : result json :=
  match data with
  | JDict kvs =>
      match dict_lookup key kvs with
      | Some v => Ok v
      | None => Ok default
      end
  | _ => Raise AttributeError
  end.

(** [sub in s] for two strings. *)
Fixpoint is_substring (sub s : string) : bool :=
  String.prefix sub s ||
  match s with
  | EmptyString => false
  | String _ s' => is_substring sub s'
  end.

(** [x == key] for a JSON value [x] and a string [key]. *)
Definition eq_str (key : string) (x : json) : bool :=
  match x with
  | JStr s => (s =? key)%string
  | _ => false
  end.

(** [key in data] for a string [key]: key membership for a dict, element
    membership for a list, substring test for a string, [TypeError] for
    anything else. *)
Definition py_contains (key : string) (data : json) : result bool :=
  match data with
  | JDict kvs =>
      Ok (match dict_lookup key kvs with Some _ => true | None => false end)
  | JList l => Ok (existsb (eq_str key) l)
  | JStr s => Ok (is_substring key s)
  | _ => Raise TypeError
  end.

(** [data[key]] for a string [key]. *)
Definition py_getitem (data : json) (key : string) : result json :=
  match data with
  | JDict kvs =>
      match dict_lookup key kvs with
      | Some v => Ok v
      | None => Raise (KeyError (JStr key))
      end
  | _ => Raise TypeError
  end.

(** [data[0]]. *)
Definition py_getitem0 (data : json) : result json :=
  match data with
  | JList l =>
      match l with
      | [] => Raise IndexError
      | x :: _ => Ok x
      end
  | JStr s =>
      match s with
      | EmptyString => Raise IndexError
      | String c _ => Ok (JStr (String c EmptyString))
      end
  | JDict _ => Raise (KeyError (JInt 0))
  | _ => Raise TypeError
  end.

(** The number of elements kept by [x[:count]] on a sequence of length
    [len]: a negative [count] counts from the end. *)
Definition slice_stop (len : nat) (count : Z) : nat :=
  if count <? 0 then Z.to_nat (Z.max 0 (Z.of_nat len + count))
  else Nat.min len (Z.to_nat count).

Fixpoint string_firstn (n : nat) (s : string) : string :=
  match n, s with
  | S n', String c s' => String c (string_firstn n' s')
  | _, _ => EmptyString
  end.

(** [data[:count]]. Slicing a dict raises ([TypeError] up to Python 3.11). *)
Definition py_slice_to (data : json) (count : Z) : result json :=
  match data with
  | JList l => Ok (JList (firstn (slice_stop (List.length l) count) l))
  | JStr s => Ok (JStr (string_firstn (slice_stop (String.length s) count) s))
  | _ => Raise TypeError
  end.

(** [int(x)] on a float: truncation toward zero. *)
Definition int_of_float (f : spec_float) : result Z :=
  match f with
  | S754_zero _ => Ok 0
  | S754_infinity _ => Raise OverflowError
  | S754_nan => Raise ValueError
  | S754_finite s m e =>
      let a := Z.shiftl (Z.pos m) e in
      Ok (if s then - a else a)
  end.

(** [float(z)] for an [int]: the nearest binary64 datum, ties to even;
    [OverflowError] when [z] is beyond the largest one. *)
Definition float_of_Z (z : Z) : result spec_float :=
  match binary_normalize 53 1024 z 0 false with
  | S754_infinity _ => Raise OverflowError
  | f => Ok f
  end.

(** [f == z] for a float and an [int]: Python compares the exact values. *)
Definition float_eq_Z (f : spec_float) (z : Z) : bool :=
  match f with
  | S754_zero _ => z =? 0
  | S754_finite s m e =>
      let v := if s then Z.neg m else Z.pos m in
      if 0 <=? e then v * 2 ^ e =? z else v =? z * 2 ^ (- e)
  | S754_infinity _ | S754_nan => false
  end.

(** 1.0, which is [float(True)]. *)
Definition float_one : spec_float := S754_finite false (2 ^ 52) (-52).

(** [str(z)] for an [int]; SQLite writes an INTEGER as text the same way. *)
Definition text_of_int (z : Z) : string :=
  NilZero.string_of_int (Z.to_int z).

(** ** Dates *)

(** A [datetime.datetime] (naive, as [datetime.utcnow()] returns it). *)
Record datetime : Type := mkDatetime {
  year : nat;
  month : nat;
  day : nat;
  hour : nat;
  minute : nat;
  second : nat;
  microsecond : nat
}.

(** The ranges [datetime] enforces on its fields. *)
Definition valid_datetime (d : datetime) : Prop :=
  1 <= Z.of_nat (year d) <= 9999 /\ 1 <= Z.of_nat (month d) <= 12 /\
  1 <= Z.of_nat (day d) <= 31 /\ Z.of_nat (hour d) <= 23 /\
  Z.of_nat (minute d) <= 59 /\ Z.of_nat (second d) <= 59 /\
  Z.of_nat (microsecond d) <= 999999.

Definition decimal (n : nat) : string :=
  NilEmpty.string_of_uint (Nat.to_uint n).

Fixpoint zeros (n : nat) : string :=
  match n with
  | O => EmptyString
  | S n' => String "0"%char (zeros n')
  end.

(** ["%0wd" % n]. *)
Definition zfill (w : nat) (n : nat) : string :=
  let s := decimal n in
  (zeros (w - String.length s) ++ s)%string.

(** [d.strftime('%Y-%m-%d %H:%M:%S')]. [%Y] is the year as the C library
    writes it: glibc does not pad it, so a year below 1000 has fewer than
    four digits (unlike [isoformat], which always writes four). *)
Definition strftime (d : datetime) : string :=
  (decimal (year d) ++ "-" ++ zfill 2 (month d) ++ "-" ++ zfill 2 (day d) ++
   " " ++ zfill 2 (hour d) ++ ":" ++ zfill 2 (minute d) ++ ":" ++
   zfill 2 (second d))%string.

(** [d.isoformat()]: the fraction is printed only when it is not zero. *)
Definition isoformat (d : datetime) : string :=
  (zfill 4 (year d) ++ "-" ++ zfill 2 (month d) ++ "-" ++ zfill 2 (day d) ++
   "T" ++ zfill 2 (hour d) ++ ":" ++ zfill 2 (minute d) ++ ":" ++
   zfill 2 (second d) ++
   (if (microsecond d =? 0)%nat then "" else "." ++ zfill 6 (microsecond d)))%string.

Definition dt_fields (d : datetime) : list nat :=
  [year d; month d; day d; hour d; minute d; second d; microsecond d].

Fixpoint lex_leb (a b : list nat) : bool :=
  match a, b with
  | [], _ => true
  | _ :: _, [] => false
  | x :: a', y :: b' => (x <? y)%nat || ((x =? y)%nat && lex_leb a' b')
  end.

(** [a <= b] on datetimes. *)
Definition dt_leb (a b : datetime) : bool :=
  lex_leb (dt_fields a) (dt_fields b).

(** ** The record table *)

(** A row of the table, holding what SQLite stores: a REAL or NULL in a
    [Float] column, a TEXT or NULL in a [String] column, a TEXT in
    [location], which is declared [nullable=False]. *)
Record WeatherRecord : Type := mkWeatherRecord {
  id : Z;
  location : string;
  latitude : option spec_float;
  longitude : option spec_float;
  date : datetime;
  temperature : option spec_float;
  description : option string;
  humidity : option spec_float;
  wind_speed : option spec_float;
  created_at : datetime
}.

(** A [WeatherRecord(...)] object that is not in the table yet: its
    attributes hold the Python values given to the constructor. *)
Record NewRecord : Type := mkNewRecord {
  new_location : json;
  new_latitude : option spec_float;
  new_longitude : option spec_float;
  new_date : datetime;
  new_temperature : json;
  new_description : json;
  new_humidity : json;
  new_wind_speed : json
}.

(** A [WeatherRecord] object loaded from the table: the row it was loaded
    from, and for each attribute a view can assign to, the Python value
    that was last assigned, if any. *)
Record LoadedRecord : Type := mkLoadedRecord {
  row : WeatherRecord;
  assigned_location : option json;
  assigned_temperature : option json;
  assigned_description : option json
}.

Definition loaded (r : WeatherRecord) : LoadedRecord :=
  {| row := r; assigned_location := None; assigned_temperature := None;
     assigned_description := None |}.

(** Whether an [int] fits SQLite's INTEGER, a signed 64-bit integer. *)
Definition fits_int64 (z : Z) : bool :=
  (- 2 ^ 63 <=? z) && (z <? 2 ^ 63).

(** SQLite stores a NaN as NULL. *)
Definition null_if_nan (f : spec_float) : option spec_float :=
  match f with
  | S754_nan => None
  | _ => Some f
  end.

(** What a [Float] column stores for a coordinate, [None] or a float. *)
Definition stored_coord (x : option spec_float) : option spec_float :=
  match x with
  | None => None
  | Some f => null_if_nan f
  end.

(** [v == old] for the loaded value [old] of a [Float] column and an
    assigned value [v]: the comparison by which the session decides
    whether the attribute has changed. *)
Definition same_float (old : option spec_float) (v : json) : bool :=
  match old, v with
  | None, JNull => true
  | Some f, JFloat g => SFeqb f g
  | Some f, JInt z => float_eq_Z f z
  | Some f, JBool b => float_eq_Z f (if b then 1 else 0)
  | _, _ => false
  end.

(** [v == old] for the loaded value [old] of a [String] column. *)
Definition same_text (old : option string) (v : json) : bool :=
  match old, v with
  | None, JNull => true
  | Some s, JStr t => (s =? t)%string
  | _, _ => false
  end.

(** The id SQLite gives to a new row of an [INTEGER PRIMARY KEY] table:
    one more than the largest id in use, 1 in an empty table. *)
Definition next_id (rows : list WeatherRecord) : Z :=
  fold_right (fun r m => Z.max (id r) m) 0 rows + 1.

(** [WeatherRecord.query.get(i)]. *)
Definition query_get (i : Z) (rows : list WeatherRecord) : option WeatherRecord :=
  find (fun r => id r =? i) rows.

(** The UPDATE of the row whose primary key is that of [r']. *)
Definition update_row (r' : WeatherRecord) (rows : list WeatherRecord)
  : list WeatherRecord :=
  map (fun r => if id r =? id r' then r' else r) rows.

(** The DELETE of the row whose primary key is [i]. *)
Definition delete_row (i : Z) (rows : list WeatherRecord) : list WeatherRecord :=
  filter (fun r => negb (id r =? i)) rows.

(** [ORDER BY created_at DESC]: rows of equal [created_at] stay in table
    order (SQL leaves their order open). *)
Fixpoint insert_desc (r : WeatherRecord) (l : list WeatherRecord)
  : list WeatherRecord :=
  match l with
  | [] => [r]
  | x :: t =>
      if dt_leb (created_at x) (created_at r) then r :: x :: t
      else x :: insert_desc r t
  end.

Definition order_by_created_at_desc (rows : list WeatherRecord)
  : list WeatherRecord :=
  fold_right insert_desc [] rows.

(** ** World, environment and the handlers' monad *)

(** The state a request runs in and leaves behind. *)
Record World : Type := mkWorld {
  store : list WeatherRecord;   (* the rows of the table, oldest first *)
  sent : list string;           (* URLs requested with [requests.get] *)
  clock : nat                   (* number of [datetime.utcnow()] reads *)
}.

(** HTTP responses. [Csv] and [Pdf] stand for the bytes pandas and
    reportlab render from their argument. *)
Inductive body : Type :=
| Json (j : json)
| Csv (data : list (list (string * json)))
| Pdf (table_data : list (list json)).

Record response : Type := mkResponse {
  status : Z;
  content_type : string;
  content : body
}.

(** What is outside the program: configuration read at start-up, the
    geocoding and HTTP services, the clock, and the Python built-ins that
    are taken as given. *)
Record Env : Type := mkEnv {
  OPENWEATHER_API_KEY : string;
  GOOGLE_MAPS_API_KEY : option string;
  (* [Nominatim(...).geocode(location)]: no match, or the match's
     [latitude] and [longitude] *)
  geocode : json -> result (option (spec_float * spec_float));
  (* [requests.get(url).json()], which may depend on what was requested
     before *)
  http_json : list string -> string -> result json;
  (* the successive values of [datetime.utcnow()] *)
  utcnow : nat -> datetime;
  (* [int(s)] for a [str] *)
  int_of_str : string -> result Z;
  (* [str(x)] for a float, as an f-string formats it *)
  str_float : spec_float -> string;
  (* [float(s)] for a [str] *)
  float_of_str : string -> result spec_float;
  (* the text SQLite stores for a REAL written to a TEXT column *)
  sql_text_of_float : spec_float -> string;
  (* [str(e)] for an exception *)
  str_exn : exn -> string
}.

Definition M (A : Type) : Type := World -> result A * World.

Definition ret {A : Type} (a : A) : M A := fun w => (Ok a, w).

Definition raise {A : Type} (e : exn) : M A := fun w => (Raise e, w).

Definition lift {A : Type} (r : result A) : M A := fun w => (r, w).

Definition bind {A B : Type} (m : M A) (k : A -> M B) : M B :=
  fun w =>
    match m w with
    | (Ok a, w') => k a w'
    | (Raise e, w') => (Raise e, w')
    end.

(** [try: m  except Exception as e: h e]. *)
Definition try_except {A : Type} (m : M A) (h : exn -> M A) : M A :=
  fun w =>
    match m w with
    | (Ok a, w') => (Ok a, w')
    | (Raise e, w') => h e w'
    end.

Declare Scope py_scope.
Delimit Scope py_scope with py.
Notation "x <- m ;; k" := (bind m (fun x => k))
  (at level 61, m at next level, right associativity) : py_scope.
Notation "m ;;; k" := (bind m (fun _ => k))
  (at level 61, right associativity) : py_scope.
Local Open Scope py_scope.

(** [jsonify(j), code]. *)
Definition jsonify (code : Z) (j : json) : response :=
  {| status := code; content_type := "application/json"; content := Json j |}.

(** The status Flask answers with: that of the response returned, that of
    an [abort], 500 for any other exception that leaves the view. *)
Definition http_status (r : result response) : Z :=
  match r with
  | Ok resp => status resp
  | Raise (HTTPException c) => c
  | Raise _ => 500
  end.

(** ** The program *)

Section App.

Variable env : Env.

(** [int(x)] for a JSON value. *)
Definition py_int (x : json) : result Z :=
  match x with
  | JBool b => Ok (if b then 1 else 0)
  | JInt z => Ok z
  | JFloat f => int_of_float f
  | JStr s => int_of_str env s
  | JNull | JList _ | JDict _ => Raise TypeError
  end.

(** [f"{x}"] for a coordinate, which is [None] or a float. *)
Definition str_coord (x : option spec_float) : string :=
  match x with
  | None => "None"
  | Some f => str_float env f
  end.

(** [requests.get(url).json()]. *)
Definition requests_get_json (url : string) : M json :=
  fun w =>
    (http_json env (sent w) url,
     {| store := store w; sent := sent w ++ [url]; clock := clock w |}).

(** [datetime.utcnow()]. *)
Definition datetime_utcnow : M datetime :=
  fun w =>
    (Ok (utcnow env (clock w)),
     {| store := store w; sent := sent w; clock := S (clock w) |}).

(** What a [Float] column stores for a Python value: the column type
    passes every value but [None] through [float], and SQLite stores a NaN
    as NULL. *)
Definition bind_float (v : json) : result (option spec_float) :=
  match v with
  | JNull => Ok None
  | JBool b => Ok (Some (if b then float_one else S754_zero false))
  | JInt z =>
      match float_of_Z z with
      | Ok f => Ok (Some f)
      | Raise e => Raise e
      end
  | JFloat f => Ok (null_if_nan f)
  | JStr s =>
      match float_of_str env s with
      | Ok f => Ok (null_if_nan f)
      | Raise e => Raise e
      end
  | JList _ | JDict _ => Raise TypeError
  end.

(** What a [String] column stores for a Python value. The column type
    converts nothing; the driver binds [None], an [int] of 64 bits, a
    [float] or a [str] and refuses anything else; the TEXT affinity of the
    column turns a number into its text. *)
Definition bind_string (v : json) : result (option string) :=
  match v with
  | JNull => Ok None
  | JBool b => Ok (Some (if b then "1" else "0"))
  | JInt z =>
      if fits_int64 z then Ok (Some (text_of_int z)) else Raise OverflowError
  | JFloat f =>
      match f with
      | S754_nan => Ok None
      | _ => Ok (Some (sql_text_of_float env f))
      end
  | JStr s => Ok (Some s)
  | JList _ | JDict _ => Raise DatabaseError
  end.

(** The row an INSERT of [record] writes, if the statement goes through:
    every column converts its value, and [location] must not end up
    NULL. *)
Definition insert_row (record : NewRecord) (new_id : Z) (stamp : datetime)
  : result WeatherRecord :=
  match bind_string (new_location record),
        bind_float (new_temperature record),
        bind_string (new_description record),
        bind_float (new_humidity record),
        bind_float (new_wind_speed record) with
  | Ok (Some loc), Ok temp, Ok descr, Ok hum, Ok speed =>
      Ok {| id := new_id;
            location := loc;
            latitude := stored_coord (new_latitude record);
            longitude := stored_coord (new_longitude record);
            date := new_date record;
            temperature := temp;
            description := descr;
            humidity := hum;
            wind_speed := speed;
            created_at := stamp |}
  | _, _, _, _, _ => Raise DatabaseError
  end.

(** [db.session.add(record); db.session.commit()] for a new object: the
    flush reads the clock for the [created_at] default, then the INSERT
    assigns the id. A failed statement leaves the table as it was. *)
Definition session_add_commit (record : NewRecord) : M unit :=
  now <- datetime_utcnow ;;
  fun w =>
    match insert_row record (next_id (store w)) now with
    | Ok r =>
        (Ok tt, {| store := store w ++ [r]; sent := sent w; clock := clock w |})
    | Raise _ => (Raise DatabaseError, w)
    end.

(** What a [Float] column holds after a flush: an attribute that was not
    assigned, or was assigned a value equal to the loaded one, is not
    written; any other value is converted by the column. *)
Definition update_float (old : option spec_float) (assigned : option json)
  : result (option spec_float) :=
  match assigned with
  | None => Ok old
  | Some v => if same_float old v then Ok old else bind_float v
  end.

(** The same for a [String] column. *)
Definition update_string (old : option string) (assigned : option json)
  : result (option string) :=
  match assigned with
  | None => Ok old
  | Some v => if same_text old v then Ok old else bind_string v
  end.

(** The row an UPDATE of a loaded [record] leaves, if the statement goes
    through. *)
Definition flush_update (record : LoadedRecord) : result WeatherRecord :=
  let r := row record in
  match update_string (Some (location r)) (assigned_location record),
        update_float (temperature r) (assigned_temperature record),
        update_string (description r) (assigned_description record) with
  | Ok (Some loc), Ok temp, Ok descr =>
      Ok {| id := id r;
            location := loc;
            latitude := latitude r;
            longitude := longitude r;
            date := date r;
            temperature := temp;
            description := descr;
            humidity := humidity r;
            wind_speed := wind_speed r;
            created_at := created_at r |}
  | _, _, _ => Raise DatabaseError
  end.

(** [db.session.commit()] after attribute assignments on a loaded
    [record]: the UPDATE is by primary key. A failed statement leaves the
    table as it was. *)
Definition session_commit_update (record : LoadedRecord) : M unit :=
  fun w =>
    match flush_update record with
    | Ok r' =>
        (Ok tt,
         {| store := update_row r' (store w); sent := sent w;
            clock := clock w |})
    | Raise _ => (Raise DatabaseError, w)
    end.

(** [db.session.delete(record); db.session.commit()]. *)
Definition session_delete_commit (record : WeatherRecord) : M unit :=
  fun w =>
    (Ok tt,
     {| store := delete_row (id record) (store w); sent := sent w;
        clock := clock w |}).

(** [WeatherRecord.query.get_or_404(id)]: the row of that id, or a 404.
    The route's [<int:id>] accepts any run of digits, and the driver
    refuses to bind an [int] that does not fit SQLite's INTEGER: it raises
    [OverflowError]. The table holds no such id, so it makes no difference
    that the row is looked for first here. *)
Definition get_or_404 (i : Z) : M WeatherRecord :=
  fun w =>
    match query_get i (store w) with
    | Some r => (Ok r, w)
    | None =>
        if fits_int64 i then (Raise (HTTPException 404), w)
        else (Raise OverflowError, w)
    end.

(** [WeatherRecord.query.order_by(WeatherRecord.created_at.desc()).all()]. *)
Definition query_all_desc : M (list WeatherRecord) :=
  fun w => (Ok (order_by_created_at_desc (store w)), w).

(** *** Helper functions *)

Definition get_coordinates (location : json)
  : M (option spec_float * option spec_float) :=
  loc <- lift (geocode env location) ;;
  match loc with
  | Some (lat, lon) => ret (Some lat, Some lon)
  | None => ret (None, None)
  end.

Definition get_weather_data (lat lon : option spec_float) : M json :=
  let url :=
    ("http://api.openweathermap.org/data/2.5/weather?lat=" ++ str_coord lat ++
     "&lon=" ++ str_coord lon ++ "&appid=" ++ OPENWEATHER_API_KEY env ++
     "&units=metric")%string in
  requests_get_json url.

Definition get_forecast_data (lat lon : option spec_float) (days : Z) : M json :=
  let url :=
    ("http://api.openweathermap.org/data/2.5/forecast?lat=" ++ str_coord lat ++
     "&lon=" ++ str_coord lon ++ "&appid=" ++ OPENWEATHER_API_KEY env ++
     "&units=metric")%string in
  requests_get_json url.

(** [not GOOGLE_MAPS_API_KEY]: the variable is unset or empty. *)
Definition no_maps_key : bool :=
  match GOOGLE_MAPS_API_KEY env with
  | None => true
  | Some k => (k =? "")%string
  end.

Definition maps_key : string :=
  match GOOGLE_MAPS_API_KEY env with
  | None => "None"
  | Some k => k
  end.

Definition get_google_maps_data (lat lon : option spec_float) (count : Z) : M json :=
  if no_maps_key then ret JNull
  else
    let url :=
      ("https://maps.googleapis.com/maps/api/place/nearbysearch/json?location="
       ++ str_coord lat ++ "," ++ str_coord lon ++ "&radius=5000&key=" ++
       maps_key)%string in
    data <- requests_get_json url ;;
    has <- lift (py_contains "results" data) ;;
    if (has : bool) then
      results <- lift (py_getitem data "results") ;;
      sliced <- lift (py_slice_to results count) ;;
      ret (JDict [("results", sliced)])
    else ret JNull.

(** *** Routes *)

(** [POST /api/weather], [data] being [request.get_json()]. *)
Definition get_weather (data : json) : M response :=
  location <- lift (py_get data "location" JNull) ;;
  fd <- lift (py_get data "forecastDays" (JInt 5)) ;;
  forecast_days <- lift (py_int fd) ;;
  pc <- lift (py_get data "placesCount" (JInt 5)) ;;
  places_count <- lift (py_int pc) ;;
  if negb (truthy location) then
    ret (jsonify 400 (JDict [("error", JStr "Location is required")]))
  else
    coords <- get_coordinates location ;;
    let lat := fst coords in
    let lon := snd coords in
    if negb (opt_float_truthy lat) || negb (opt_float_truthy lon) then
      ret (jsonify 404 (JDict [("error", JStr "Could not find location")]))
    else
      try_except
        (current_weather <- get_weather_data lat lon ;;
         forecast <- get_forecast_data lat lon forecast_days ;;
         places <- get_google_maps_data lat lon places_count ;;
         now <- datetime_utcnow ;;
         main <- lift (py_getitem current_weather "main") ;;
         temp <- lift (py_getitem main "temp") ;;
         weather <- lift (py_getitem current_weather "weather") ;;
         weather0 <- lift (py_getitem0 weather) ;;
         descr <- lift (py_getitem weather0 "description") ;;
         main' <- lift (py_getitem current_weather "main") ;;
         hum <- lift (py_getitem main' "humidity") ;;
         wind <- lift (py_getitem current_weather "wind") ;;
         speed <- lift (py_getitem wind "speed") ;;
         session_add_commit
           {| new_location := location;
              new_latitude := lat;
              new_longitude := lon;
              new_date := now;
              new_temperature := temp;
              new_description := descr;
              new_humidity := hum;
              new_wind_speed := speed |} ;;;
         ret (jsonify 200
                (JDict [("current", current_weather);
                        ("forecast", forecast);
                        ("places", places)])))
        (fun e => ret (jsonify 500 (JDict [("error", JStr (str_exn env e))]))).

(** [jsonify] of a column value: [None] or a float, [None] or a [str]. *)
Definition json_of_float (x : option spec_float) : json :=
  match x with
  | None => JNull
  | Some f => JFloat f
  end.

Definition json_of_text (x : option string) : json :=
  match x with
  | None => JNull
  | Some s => JStr s
  end.

(** The object [GET /api/records] builds for a row. *)
Definition record_json (record : WeatherRecord) : json :=
  JDict [("id", JInt (id record));
         ("location", JStr (location record));
         ("date", JStr (isoformat (date record)));
         ("temperature", json_of_float (temperature record));
         ("description", json_of_text (description record));
         ("humidity", json_of_float (humidity record));
         ("wind_speed", json_of_float (wind_speed record))].

(** [GET /api/records]. *)
Definition get_records : M response :=
  records <- query_all_desc ;;
  ret (jsonify 200 (JList (map record_json records))).

(** [record.location = v], and the like. *)
Definition set_location (record : LoadedRecord) (v : json) : LoadedRecord :=
  {| row := row record; assigned_location := Some v;
     assigned_temperature := assigned_temperature record;
     assigned_description := assigned_description record |}.

Definition set_temperature (record : LoadedRecord) (v : json) : LoadedRecord :=
  {| row := row record; assigned_location := assigned_location record;
     assigned_temperature := Some v;
     assigned_description := assigned_description record |}.

Definition set_description (record : LoadedRecord) (v : json) : LoadedRecord :=
  {| row := row record; assigned_location := assigned_location record;
     assigned_temperature := assigned_temperature record;
     assigned_description := Some v |}.

(** [if key in data: record.<attr> = data[key]]. *)
Definition assign_if_present (key : string) (data : json)
    (set : LoadedRecord -> json -> LoadedRecord) (record : LoadedRecord)
  : M LoadedRecord :=
  has <- lift (py_contains key data) ;;
  if (has : bool) then
    v <- lift (py_getitem data key) ;;
    ret (set record v)
  else ret record.

(** [PUT /api/records/<int:id>], [data] being [request.get_json()]. *)
Definition update_record (record_id : Z) (data : json) : M response :=
  record <- get_or_404 record_id ;;
  record <- assign_if_present "location" data set_location (loaded record) ;;
  record <- assign_if_present "temperature" data set_temperature record ;;
  record <- assign_if_present "description" data set_description record ;;
  session_commit_update record ;;;
  ret (jsonify 200 (JDict [("message", JStr "Record updated successfully")])).

(** [DELETE /api/records/<int:id>]. *)
Definition delete_record (record_id : Z) : M response :=
  record <- get_or_404 record_id ;;
  session_delete_commit record ;;;
  ret (jsonify 200 (JDict [("message", JStr "Record deleted successfully")])).

(** U+00B0, the degree sign. *)
Definition degree_sign : string := String (ascii_of_nat 176) EmptyString.

(** The dict [export_data] builds for a row. *)
Definition export_row (record : WeatherRecord) : list (string * json) :=
  [("Location", JStr (location record));
   ("Date", JStr (strftime (date record)));
   (("Temperature (" ++ degree_sign ++ "C)")%string,
    json_of_float (temperature record));
   ("Description", json_of_text (description record));
   ("Humidity (%)", json_of_float (humidity record));
   ("Wind Speed (m/s)", json_of_float (wind_speed record))].

(** [data[0]] for the list of dicts. *)
Definition data_getitem0 (data : list (list (string * json)))
  : result (list (string * json)) :=
  match data with
  | [] => Raise IndexError
  | first :: _ => Ok first
  end.

(** [GET /api/export/<format>]. *)
Definition export_data (format : string) : M response :=
  records <- query_all_desc ;;
  let data := map export_row records in
  if (format =? "json")%string then
    ret (jsonify 200 (JList (map JDict data)))
  else if (format =? "csv")%string then
    ret {| status := 200; content_type := "text/csv"; content := Csv data |}
  else if (format =? "pdf")%string then
    first <- lift (data_getitem0 data) ;;
    let table_data :=
      [map (fun kv => JStr (fst kv)) first] ++ map (map snd) data in
    ret {| status := 200; content_type := "application/pdf";
           content := Pdf table_data |}
  else
    ret (jsonify 400 (JDict [("error", JStr "Invalid format")])).

End App.

(** ** A sample environment

    The geocoder knows Paris and a place on the equator; the weather
    provider answers every current-weather request with the same payload. *)

Module Sample.

(** 48.5 and 2.25 as binary64 data. *)
Definition lat_paris : spec_float := S754_finite false (97 * 2 ^ 46) (-47).
Definition lon_paris : spec_float := S754_finite false (9 * 2 ^ 49) (-51).

(** 18.25 and 3.125. *)
Definition temp_paris : spec_float := S754_finite false (73 * 2 ^ 46) (-48).
Definition wind_paris : spec_float := S754_finite false (25 * 2 ^ 48) (-51).

(** 60.0, 21.0 and 21.5. *)
Definition hum_paris : spec_float := S754_finite false (15 * 2 ^ 49) (-47).
Definition twenty_one : spec_float := S754_finite false (21 * 2 ^ 48) (-48).
Definition twenty_one_half : spec_float := S754_finite false (43 * 2 ^ 47) (-48).

Definition current_paris : json :=
  JDict [("main", JDict [("temp", JFloat temp_paris); ("humidity", JInt 60)]);
         ("weather", JList [JDict [("description", JStr "clear sky")]]);
         ("wind", JDict [("speed", JFloat wind_paris)])].

Definition forecast_paris : json :=
  JDict [("cod", JStr "200"); ("list", JList [])].

Definition env : Env :=
  {| OPENWEATHER_API_KEY := "owm-key";
     GOOGLE_MAPS_API_KEY := None;
     geocode := fun q =>
       match q with
       | JStr "Paris" => Ok (Some (lat_paris, lon_paris))
       | JStr "Equator" => Ok (Some (S754_zero false, lon_paris))
       | _ => Ok None
       end;
     http_json := fun _ url =>
       if is_substring "/forecast?" url then Ok forecast_paris
       else Ok current_paris;
     utcnow := fun n => mkDatetime 2024 5 17 9 30 n 0;
     int_of_str := fun _ => Raise ValueError;
     str_float := fun f =>
       match f with
       | S754_zero _ => "0.0"
       | _ => "1.5"
       end;
     float_of_str := fun s =>
       if (s =? "21.5")%string then Ok twenty_one_half else Raise ValueError;
     sql_text_of_float := fun _ => "1.5";
     str_exn := fun _ => "error" |}.

Definition empty_world : World := {| store := []; sent := []; clock := 0 |}.

Definition paris_request : json :=
  JDict [("location", JStr "Paris"); ("forecastDays", JInt 3);
         ("placesCount", JInt 2)].

(** The table after one lookup of Paris. *)
Definition one_row_world : World := snd (get_weather env paris_request empty_world).

(** The table after two lookups of Paris. *)
Definition two_row_world : World := snd (get_weather env paris_request one_row_world).

End Sample.

(** ** Vocabulary of the statements *)

(** The four values [get_weather] reads from a current-weather payload:
    [cw['main']['temp']], [cw['weather'][0]['description']],
    [cw['main']['humidity']] and [cw['wind']['speed']]. *)
Definition current_fields (cw temp descr hum speed : json) : Prop :=
  exists main weather weather0 wind,
    py_getitem cw "main" = Ok main /\
    py_getitem main "temp" = Ok temp /\
    py_getitem cw "weather" = Ok weather /\
    py_getitem0 weather = Ok weather0 /\
    py_getitem weather0 "description" = Ok descr /\
    py_getitem main "humidity" = Ok hum /\
    py_getitem cw "wind" = Ok wind /\
    py_getitem wind "speed" = Ok speed.

(** The row a lookup of the place named [s] inserts from world [w], given
    the coordinates of the place and the four values of the payload. *)
Definition inserted_record (env : Env) (w : World) (s : string)
    (lat lon : spec_float) (temp : option spec_float) (descr : option string)
    (hum speed : option spec_float) : WeatherRecord :=
  {| id := next_id (store w);
     location := s;
     latitude := null_if_nan lat;
     longitude := null_if_nan lon;
     date := utcnow env (clock w);
     temperature := temp;
     description := descr;
     humidity := hum;
     wind_speed := speed;
     created_at := utcnow env (S (clock w)) |}.

(** The row the sample lookup of Paris inserts into the empty table. *)
Definition paris_row : WeatherRecord :=
  inserted_record Sample.env Sample.empty_world "Paris"
    Sample.lat_paris Sample.lon_paris
    (Some Sample.temp_paris) (Some "clear sky") (Some Sample.hum_paris)
    (Some Sample.wind_paris).

(** A JSON number that a float holds exactly: a float that is not a NaN,
    or an [int] whose conversion to a float is exact. *)
Definition exact_number (v : json) : bool :=
  match v with
  | JFloat f => match f with S754_nan => false | _ => true end
  | JInt z =>
      match float_of_Z z with
      | Ok f => float_eq_Z f z
      | Raise _ => false
      end
  | _ => false
  end.

(** What a request body supplies under a key the update looks for:
    nothing when [key in data] is false, the value [data[key]] when it is
    true. *)
Definition supplied (key : string) (data : json) (a : option json) : Prop :=
  (py_contains key data = Ok false /\ a = None) \/
  (exists v, py_contains key data = Ok true /\ py_getitem data key = Ok v /\
             a = Some v).

(** A row with another description. *)
Definition with_description (r : WeatherRecord) (d : option string)
  : WeatherRecord :=
  {| id := id r; location := location r; latitude := latitude r;
     longitude := longitude r; date := date r; temperature := temperature r;
     description := d; humidity := humidity r;
     wind_speed := wind_speed r; created_at := created_at r |}.

(** What reading the seven keys of a listed object gives for the row [r]. *)
Definition shows_row (o : json) (r : WeatherRecord) : Prop :=
  py_getitem o "id" = Ok (JInt (id r)) /\
  py_getitem o "location" = Ok (JStr (location r)) /\
  py_getitem o "date" = Ok (JStr (isoformat (date r))) /\
  py_getitem o "temperature" = Ok (json_of_float (temperature r)) /\
  py_getitem o "description" = Ok (json_of_text (description r)) /\
  py_getitem o "humidity" = Ok (json_of_float (humidity r)) /\
  py_getitem o "wind_speed" = Ok (json_of_float (wind_speed r)).

(** The columns no request can change once a row exists. *)
Definition same_fixed_columns (r r' : WeatherRecord) : Prop :=
  id r' = id r /\ latitude r' = latitude r /\ longitude r' = longitude r /\
  date r' = date r /\ humidity r' = humidity r /\
  wind_speed r' = wind_speed r /\ created_at r' = created_at r.

(** Newest first. *)
Definition newer_or_equal (a b : WeatherRecord) : Prop :=
  dt_leb (created_at b) (created_at a) = true.

(** Shapes of strings: a digit, or a given character. *)
Inductive pat : Type :=
| Digit
| Char (c : ascii).

Definition is_digit (c : ascii) : bool :=
  let n := nat_of_ascii c in (48 <=? n)%nat && (n <=? 57)%nat.

Fixpoint matches (p : list pat) (s : string) : bool :=
  match p, s with
  | [], EmptyString => true
  | Digit :: p', String c s' => is_digit c && matches p' s'
  | Char k :: p', String c s' => Ascii.eqb c k && matches p' s'
  | _, _ => false
  end.

(** [YYYY-MM-DD HH:MM:SS]. *)
Definition timestamp_pattern : list pat :=
  [Digit; Digit; Digit; Digit; Char "-"; Digit; Digit; Char "-"; Digit; Digit;
   Char " "; Digit; Digit; Char ":"; Digit; Digit; Char ":"; Digit; Digit].

(** The keys of an exported object, in the order [export_data] writes them. *)
Definition export_keys : list string :=
  ["Location"; "Date"; ("Temperature (" ++ degree_sign ++ "C)")%string;
   "Description"; "Humidity (%)"; "Wind Speed (m/s)"].

(** The keys the specification names. *)
Definition spec_export_keys : list string :=
  ["Location"; "Date"; "Temperature"; "Description"; "Humidity"; "Wind Speed"].

(** The objects of the array the JSON export answers with. *)
Definition exported_objects (w : World) : list json :=
  match fst (export_data "json" w) with
  | Ok resp =>
      match content resp with
      | Json (JList l) => l
      | _ => []
      end
  | Raise _ => []
  end.

(** [GET /]: the template [index] renders and the context it passes,
    [has_maps_api=bool(GOOGLE_MAPS_API_KEY)]. *)
Definition index (env : Env) : string * list (string * json) :=
  ("index.html", [("has_maps_api", JBool (negb (no_maps_key env)))]).

(** [YYYY-MM-DDTHH:MM:SS]. *)
Definition iso_pattern : list pat :=
  [Digit; Digit; Digit; Digit; Char "-"; Digit; Digit; Char "-"; Digit; Digit;
   Char "T"; Digit; Digit; Char ":"; Digit; Digit; Char ":"; Digit; Digit].

(** The primary key holds: no two rows of the table share an id. *)
Definition unique_ids (rows : list WeatherRecord) : Prop :=
  NoDup (map id rows).

(** The objects of the array the list operation answers with. *)
Definition listed_objects (w : World) : list json :=
  match fst (get_records w) with
  | Ok resp =>
      match content resp with
      | Json (JList l) => l
      | _ => []
      end
  | Raise _ => []
  end.

(** A second sample environment: a mapping-provider key is configured and
    the provider knows three places. *)
Module SampleMaps.

Definition three_places : json :=
  JDict [("results",
          JList [JDict [("name", JStr "Louvre")];
                 JDict [("name", JStr "Notre-Dame")];
                 JDict [("name", JStr "Orsay")]]);
         ("status", JStr "OK")].

Definition env : Env :=
  {| OPENWEATHER_API_KEY := "owm-key";
     GOOGLE_MAPS_API_KEY := Some "maps-key";
     geocode := fun q =>
       match q with
       | JStr "Offline" => Raise (RequestException "timed out")
       | _ => geocode Sample.env q
       end;
     http_json := fun _ url =>
       if is_substring "/forecast?" url then Ok Sample.forecast_paris
       else if is_substring "nearbysearch" url then Ok three_places
       else Ok (JDict [("cod", JInt 401); ("message", JStr "Invalid API key")]);
     utcnow := fun n => mkDatetime 2024 5 17 9 30 (n mod 60) 0;
     int_of_str := int_of_str Sample.env;
     str_float := str_float Sample.env;
     float_of_str := float_of_str Sample.env;
     sql_text_of_float := sql_text_of_float Sample.env;
     str_exn := str_exn Sample.env |}.

(** The worlds a lookup of Paris goes through from the one-row table: after
    the current-weather request, after the forecast request, after the
    places request. *)
Definition after_current : World :=
  snd (get_weather_data env (Some Sample.lat_paris) (Some Sample.lon_paris)
         Sample.one_row_world).

Definition after_forecast : World :=
  snd (get_forecast_data env (Some Sample.lat_paris) (Some Sample.lon_paris)
         3 after_current).

Definition after_places : World :=
  snd (get_google_maps_data env (Some Sample.lat_paris)
         (Some Sample.lon_paris) 2 after_forecast).

End SampleMaps.

(** A third sample environment: the mapping provider refuses the key and
    answers with an error object, and the weather provider sends the
    temperature as a text that is not a number. *)
Module SampleDenied.

Definition denied : list (string * json) :=
  [("error_message", JStr "The provided API key is invalid.");
   ("status", JStr "REQUEST_DENIED")].

(** The current-weather payload, its temperature being "n/a". *)
Definition current_text : json :=
  JDict [("main", JDict [("temp", JStr "n/a"); ("humidity", JInt 60)]);
         ("weather", JList [JDict [("description", JStr "clear sky")]]);
         ("wind", JDict [("speed", JFloat Sample.wind_paris)])].

Definition env : Env :=
  {| OPENWEATHER_API_KEY := "owm-key";
     GOOGLE_MAPS_API_KEY := Some "bad-key";
     geocode := geocode Sample.env;
     http_json := fun _ url =>
       if is_substring "nearbysearch" url then Ok (JDict denied)
       else if is_substring "/forecast?" url then Ok Sample.forecast_paris
       else Ok current_text;
     utcnow := utcnow Sample.env;
     int_of_str := int_of_str Sample.env;
     str_float := str_float Sample.env;
     float_of_str := float_of_str Sample.env;
     sql_text_of_float := sql_text_of_float Sample.env;
     str_exn := str_exn Sample.env |}.

(** The worlds a lookup of Paris goes through from the one-row table. *)
Definition after_current : World :=
  snd (get_weather_data env (Some Sample.lat_paris) (Some Sample.lon_paris)
         Sample.one_row_world).

Definition after_forecast : World :=
  snd (get_forecast_data env (Some Sample.lat_paris) (Some Sample.lon_paris)
         3 after_current).

Definition after_places : World :=
  snd (get_google_maps_data env (Some Sample.lat_paris)
         (Some Sample.lon_paris) 2 after_forecast).

End SampleDenied.

(** * Properties *)

(** ** Export: formats *)

(** C1 (the code departs from it). With an empty table the PDF branch
    evaluates [data[0]] and raises [IndexError]: no PDF is produced and
    Flask answers 500, whatever the rest of the world is. *)
Theorem export_pdf_empty_table_raises :
  forall snt clk,
    let w := {| store := []; sent := snt; clock := clk |} in
    export_data "pdf" w = (Raise IndexError, w) /\
    http_status (fst (export_data "pdf" w)) = 500.
Proof.
  intros snt clk w. split; reflexivity.
Qed.

(** The JSON and CSV branches answer an empty table with an empty export. *)
Lemma export_json_csv_empty_table :
  forall snt clk,
    let w := {| store := []; sent := snt; clock := clk |} in
    export_data "json" w = (Ok (jsonify 200 (JList [])), w) /\
    export_data "csv" w =
      (Ok {| status := 200; content_type := "text/csv"; content := Csv [] |}, w).
Proof.
  intros snt clk w. split; reflexivity.
Qed.

(** C8. Every format token other than json, csv and pdf is answered with
    status 400 and the body [{"error": "Invalid format"}]; nothing is
    exported and the world is left as it was. *)
Theorem export_invalid_format :
  forall (format : string) (w : World),
    format <> "json" -> format <> "csv" -> format <> "pdf" ->
    export_data format w =
      (Ok (jsonify 400 (JDict [("error", JStr "Invalid format")])), w).
Proof.
  intros format w Hj Hc Hp.
  unfold export_data, bind, query_all_desc, ret.
  apply String.eqb_neq in Hj, Hc, Hp.
  rewrite Hj, Hc, Hp. reflexivity.
Qed.

Lemma export_invalid_format_xml :
  export_data "xml" Sample.one_row_world =
    (Ok (jsonify 400 (JDict [("error", JStr "Invalid format")])),
     Sample.one_row_world).
Proof.
  apply (export_invalid_format "xml" Sample.one_row_world); discriminate.
Defined.

(** ** Weather lookup *)

Lemma requests_get_json_frame :
  forall env url w r w',
    requests_get_json env url w = (r, w') ->
    store w' = store w /\ clock w' = clock w.
Proof.
  intros env url w r w' H. unfold requests_get_json in H.
  inversion H; subst; simpl; auto.
Qed.

Lemma get_google_maps_data_frame :
  forall env lat lon count w r w',
    get_google_maps_data env lat lon count w = (r, w') ->
    store w' = store w /\ clock w' = clock w.
Proof.
  intros env lat lon count w r w' H. unfold get_google_maps_data in H.
  destruct (no_maps_key env).
  - inversion H; subst; auto.
  - unfold bind in H.
    match type of H with
    | context [requests_get_json ?e ?u ?w0] =>
        destruct (requests_get_json e u w0) as [d w1] eqn:E
    end.
    apply requests_get_json_frame in E.
    destruct d as [d|e]; [|inversion H; subst; exact E].
    unfold lift, ret in H.
    destruct (py_contains "results" d) as [[|]|e];
      try (inversion H; subst; exact E).
    destruct (py_getitem d "results") as [v|e];
      try (inversion H; subst; exact E).
    destruct (py_slice_to v count) as [v'|e];
      inversion H; subst; exact E.
Qed.

(** C10. The forecast helper ignores its day count: the request it issues,
    the payload it returns and the world it leaves are the same for any two
    day counts; and two lookup requests that agree on [location] and
    [placesCount], whatever their (convertible) [forecastDays], get the same
    response and leave the same world. *)
Theorem forecast_days_unused :
  forall (env : Env) (data1 data2 : json) (v1 v2 : json) (d1 d2 : Z) (w : World),
    py_get data1 "location" JNull = py_get data2 "location" JNull ->
    py_get data1 "placesCount" (JInt 5) = py_get data2 "placesCount" (JInt 5) ->
    py_get data1 "forecastDays" (JInt 5) = Ok v1 -> py_int env v1 = Ok d1 ->
    py_get data2 "forecastDays" (JInt 5) = Ok v2 -> py_int env v2 = Ok d2 ->
    (forall lat lon (a b : Z) w0,
        get_forecast_data env lat lon a w0 = get_forecast_data env lat lon b w0) /\
    get_weather env data1 w = get_weather env data2 w.
Proof.
  intros env data1 data2 v1 v2 d1 d2 w Hloc Hpc Hv1 Hd1 Hv2 Hd2.
  split; [reflexivity|].
  unfold get_weather, bind, lift.
  rewrite Hloc, Hpc, Hv1, Hv2, Hd1, Hd2.
  reflexivity.
Qed.

Lemma forecast_days_unused_paris :
  get_weather Sample.env
    (JDict [("location", JStr "Paris"); ("forecastDays", JInt 3)])
    Sample.empty_world =
  get_weather Sample.env
    (JDict [("location", JStr "Paris"); ("forecastDays", JInt 7)])
    Sample.empty_world.
Proof.
  apply (forecast_days_unused Sample.env
           (JDict [("location", JStr "Paris"); ("forecastDays", JInt 3)])
           (JDict [("location", JStr "Paris"); ("forecastDays", JInt 7)])
           (JInt 3) (JInt 7) 3 7 Sample.empty_world); reflexivity.
Defined.

Lemma SFeqb_refl :
  forall f, f <> S754_nan -> SFeqb f f = true.
Proof.
  intros f Hf. unfold SFeqb, SFcompare.
  destruct f as [s | s | | s m e]; try (destruct s; reflexivity).
  - congruence.
  - rewrite Z.compare_refl.
    change (PosDef.Pos.compare_cont Eq m m) with (Pos.compare m m).
    rewrite Pos.compare_refl. destruct s; reflexivity.
Qed.

(** A number a float holds exactly is stored as a float that Python finds
    equal to it. *)
Lemma bind_float_exact :
  forall env v x,
    bind_float env v = Ok x -> exact_number v = true ->
    same_float x v = true.
Proof.
  intros env v x Hb He. destruct v; try discriminate He.
  - cbn in Hb, He. destruct (float_of_Z z) as [f|e]; [|discriminate].
    inversion Hb; subst. exact He.
  - cbn in Hb. inversion Hb; subst.
    destruct f as [s | s | | s m e]; try discriminate He;
      cbn [null_if_nan same_float]; apply SFeqb_refl; discriminate.
Qed.

Lemma insert_row_ok :
  forall env p i stamp r,
    insert_row env p i stamp = Ok r ->
    id r = i /\ date r = new_date p /\ created_at r = stamp /\
    bind_string env (new_location p) = Ok (Some (location r)) /\
    bind_float env (new_temperature p) = Ok (temperature r) /\
    bind_string env (new_description p) = Ok (description r) /\
    bind_float env (new_humidity p) = Ok (humidity r) /\
    bind_float env (new_wind_speed p) = Ok (wind_speed r).
Proof.
  intros env p i stamp r H. unfold insert_row in H.
  destruct (bind_string env (new_location p)) as [[loc|]|]; try discriminate.
  destruct (bind_float env (new_temperature p)) as [temp|]; try discriminate.
  destruct (bind_string env (new_description p)) as [descr|]; try discriminate.
  destruct (bind_float env (new_humidity p)) as [hum|]; try discriminate.
  destruct (bind_float env (new_wind_speed p)) as [speed|]; try discriminate.
  inversion H; subst; cbn. repeat split; reflexivity.
Qed.

Lemma insert_row_raises :
  forall env p i stamp e,
    insert_row env p i stamp = Raise e -> e = DatabaseError.
Proof.
  intros env p i stamp e H. unfold insert_row in H.
  destruct (bind_string env (new_location p)) as [[loc|]|];
    try (inversion H; reflexivity).
  destruct (bind_float env (new_temperature p));
    try (inversion H; reflexivity).
  destruct (bind_string env (new_description p));
    try (inversion H; reflexivity).
  destruct (bind_float env (new_humidity p));
    try (inversion H; reflexivity).
  destruct (bind_float env (new_wind_speed p)); inversion H; reflexivity.
Qed.

Section SuccessfulLookup.

Variable env : Env.
Variables (data : json) (s : string) (fd pc : json) (forecast_days places_count : Z).
Variables (lat lon : spec_float).
Variables (w w1 w2 w3 : World).
Variables (current_weather forecast places : json).
Variables (temp descr hum speed : json).
Variables (t : option spec_float) (d : option string) (h sp : option spec_float).

Hypothesis Hlocation : py_get data "location" JNull = Ok (JStr s).
Hypothesis Hnonempty : s <> "".
Hypothesis Hfd : py_get data "forecastDays" (JInt 5) = Ok fd.
Hypothesis Hforecast_days : py_int env fd = Ok forecast_days.
Hypothesis Hpc : py_get data "placesCount" (JInt 5) = Ok pc.
Hypothesis Hplaces_count : py_int env pc = Ok places_count.
Hypothesis Hgeocode : geocode env (JStr s) = Ok (Some (lat, lon)).
Hypothesis Hlat : float_truthy lat = true.
Hypothesis Hlon : float_truthy lon = true.
Hypothesis Hcurrent :
  get_weather_data env (Some lat) (Some lon) w = (Ok current_weather, w1).
Hypothesis Hforecast :
  get_forecast_data env (Some lat) (Some lon) forecast_days w1 = (Ok forecast, w2).
Hypothesis Hplaces :
  get_google_maps_data env (Some lat) (Some lon) places_count w2 = (Ok places, w3).
Hypothesis Hfields : current_fields current_weather temp descr hum speed.

Lemma lookup_world_frame : store w3 = store w /\ clock w3 = clock w.
Proof.
  destruct (requests_get_json_frame _ _ _ _ _ Hcurrent) as [A1 A2].
  destruct (requests_get_json_frame _ _ _ _ _ Hforecast) as [B1 B2].
  destruct (get_google_maps_data_frame _ _ _ _ _ _ _ Hplaces) as [C1 C2].
  split; congruence.
Qed.

(** The lookup up to its commit: the answer and the world depend on
    whether the INSERT goes through. *)
Lemma get_weather_reaches_commit :
  get_weather env data w =
    match insert_row env
            {| new_location := JStr s;
               new_latitude := Some lat;
               new_longitude := Some lon;
               new_date := utcnow env (clock w);
               new_temperature := temp;
               new_description := descr;
               new_humidity := hum;
               new_wind_speed := speed |}
            (next_id (store w)) (utcnow env (S (clock w))) with
    | Ok r =>
        (Ok (jsonify 200
               (JDict [("current", current_weather); ("forecast", forecast);
                       ("places", places)])),
         {| store := store w ++ [r]; sent := sent w3;
            clock := S (S (clock w)) |})
    | Raise _ =>
        (Ok (jsonify 500
               (JDict [("error", JStr (str_exn env DatabaseError))])),
         {| store := store w; sent := sent w3; clock := S (S (clock w)) |})
    end.
Proof.
  destruct lookup_world_frame as [Hst Hck].
  destruct Hfields as (main & weather & weather0 & wind &
                       F1 & F2 & F3 & F4 & F5 & F6 & F7 & F8).
  unfold get_weather, bind, lift.
  rewrite Hlocation, Hfd, Hforecast_days, Hpc, Hplaces_count.
  assert (Ht : truthy (JStr s) = true).
  { simpl. apply String.eqb_neq in Hnonempty. rewrite Hnonempty. reflexivity. }
  rewrite Ht. cbn [negb].
  unfold get_coordinates, bind, lift, ret. rewrite Hgeocode.
  cbn [fst snd opt_float_truthy]. rewrite Hlat, Hlon. cbn [negb orb].
  unfold try_except, bind, lift, ret.
  rewrite Hcurrent, Hforecast, Hplaces.
  unfold datetime_utcnow at 1.
  rewrite F1, F2, F3, F4, F5, F6, F7, F8.
  unfold session_add_commit, bind, datetime_utcnow.
  cbn [store sent clock]. rewrite Hst, Hck.
  destruct (insert_row env _ _ _); reflexivity.
Qed.

Hypothesis Htemp : bind_float env temp = Ok t.
Hypothesis Hdescr : bind_string env descr = Ok d.
Hypothesis Hhum : bind_float env hum = Ok h.
Hypothesis Hspeed : bind_float env speed = Ok sp.

Lemma get_weather_succeeds :
  get_weather env data w =
    (Ok (jsonify 200
           (JDict [("current", current_weather); ("forecast", forecast);
                   ("places", places)])),
     {| store := store w ++ [inserted_record env w s lat lon t d h sp];
        sent := sent w3;
        clock := S (S (clock w)) |}).
Proof.
  rewrite get_weather_reaches_commit. unfold insert_row.
  cbn [new_location new_latitude new_longitude new_date new_temperature
       new_description new_humidity new_wind_speed bind_string stored_coord].
  rewrite Htemp, Hdescr, Hhum, Hspeed. reflexivity.
Qed.

(** C3. A lookup that passes validation and geocoding, whose upstream
    calls succeed and whose payload holds values the columns take (each
    [Float] column converts its value with [float], the [String] column
    stores a text) answers 200 and appends exactly one row to the table.
    The row holds the request's location string and, in temperature,
    description, humidity and wind speed, what the columns make of
    [main.temp], [weather[0].description], [main.humidity] and
    [wind.speed]: a description that is a string is stored as it is, and a
    number that a float holds exactly (any float, an integer such as 60) is
    stored as a float equal to it. *)
Theorem lookup_inserts_one_record :
  exists r : WeatherRecord,
    http_status (fst (get_weather env data w)) = 200 /\
    store (snd (get_weather env data w)) = store w ++ [r] /\
    location r = s /\
    temperature r = t /\
    description r = d /\
    humidity r = h /\
    wind_speed r = sp /\
    (exact_number temp = true -> same_float (temperature r) temp = true) /\
    (forall x, descr = JStr x -> description r = Some x) /\
    (exact_number hum = true -> same_float (humidity r) hum = true) /\
    (exact_number speed = true -> same_float (wind_speed r) speed = true).
Proof.
  exists (inserted_record env w s lat lon t d h sp).
  rewrite get_weather_succeeds. cbn.
  split; [reflexivity|]. split; [reflexivity|]. split; [reflexivity|].
  split; [reflexivity|]. split; [reflexivity|]. split; [reflexivity|].
  split; [reflexivity|].
  split; [apply (bind_float_exact env); exact Htemp|].
  split; [intros x Hx; rewrite Hx in Hdescr; cbn in Hdescr; congruence|].
  split; [apply (bind_float_exact env); exact Hhum|].
  apply (bind_float_exact env); exact Hspeed.
Qed.

End SuccessfulLookup.

Lemma lookup_inserts_one_record_paris :
  exists r : WeatherRecord,
    http_status (fst (get_weather Sample.env Sample.paris_request
                        Sample.empty_world)) = 200 /\
    store (snd (get_weather Sample.env Sample.paris_request
                  Sample.empty_world)) = store Sample.empty_world ++ [r] /\
    location r = "Paris" /\
    temperature r = Some Sample.temp_paris /\
    description r = Some "clear sky" /\
    humidity r = Some Sample.hum_paris /\
    wind_speed r = Some Sample.wind_paris /\
    same_float (temperature r) (JFloat Sample.temp_paris) = true /\
    same_float (humidity r) (JInt 60) = true /\
    same_float (wind_speed r) (JFloat Sample.wind_paris) = true.
Proof.
  assert (Hf : current_fields Sample.current_paris (JFloat Sample.temp_paris)
                 (JStr "clear sky") (JInt 60) (JFloat Sample.wind_paris)).
  { unfold current_fields.
    exists (JDict [("temp", JFloat Sample.temp_paris); ("humidity", JInt 60)]),
      (JList [JDict [("description", JStr "clear sky")]]),
      (JDict [("description", JStr "clear sky")]),
      (JDict [("speed", JFloat Sample.wind_paris)]).
    repeat split; reflexivity. }
  destruct (lookup_inserts_one_record Sample.env Sample.paris_request "Paris"
              (JInt 3) (JInt 2) 3 2 Sample.lat_paris Sample.lon_paris
              Sample.empty_world
              (snd (get_weather_data Sample.env (Some Sample.lat_paris)
                      (Some Sample.lon_paris) Sample.empty_world))
              (snd (get_forecast_data Sample.env (Some Sample.lat_paris)
                      (Some Sample.lon_paris) 3
                      (snd (get_weather_data Sample.env (Some Sample.lat_paris)
                              (Some Sample.lon_paris) Sample.empty_world))))
              (snd (get_forecast_data Sample.env (Some Sample.lat_paris)
                      (Some Sample.lon_paris) 3
                      (snd (get_weather_data Sample.env (Some Sample.lat_paris)
                              (Some Sample.lon_paris) Sample.empty_world))))
              Sample.current_paris Sample.forecast_paris JNull
              (JFloat Sample.temp_paris) (JStr "clear sky") (JInt 60)
              (JFloat Sample.wind_paris)
              (Some Sample.temp_paris) (Some "clear sky")
              (Some Sample.hum_paris) (Some Sample.wind_paris)
              eq_refl ltac:(discriminate) eq_refl eq_refl eq_refl eq_refl
              eq_refl eq_refl eq_refl eq_refl eq_refl eq_refl Hf
              eq_refl eq_refl eq_refl eq_refl)
    as (r & H1 & H2 & H3 & H4 & H5 & H6 & H7 & H8 & H9 & H10 & H11).
  exists r.
  split; [exact H1|]. split; [exact H2|]. split; [exact H3|].
  split; [exact H4|]. split; [exact H5|]. split; [exact H6|].
  split; [exact H7|]. split; [exact (H8 eq_refl)|].
  split; [exact (H10 eq_refl)|]. exact (H11 eq_refl).
Defined.

(** C9. Without a mapping-provider key (the variable is unset, or empty)
    the places helper returns [None] for every pair of coordinates and every
    count, issues no request and raises nothing; a lookup that otherwise
    succeeds (its payload holding values the columns take) still answers
    200, with [None] under the [places] key. *)
Theorem places_unavailable_without_key :
  forall (env : Env),
    GOOGLE_MAPS_API_KEY env = None \/ GOOGLE_MAPS_API_KEY env = Some "" ->
    (forall lat lon count w,
        get_google_maps_data env lat lon count w = (Ok JNull, w)) /\
    (forall data s fd pc forecast_days places_count lat lon w w1 w2
            current_weather forecast temp descr hum speed t d h sp,
        py_get data "location" JNull = Ok (JStr s) ->
        s <> "" ->
        py_get data "forecastDays" (JInt 5) = Ok fd ->
        py_int env fd = Ok forecast_days ->
        py_get data "placesCount" (JInt 5) = Ok pc ->
        py_int env pc = Ok places_count ->
        geocode env (JStr s) = Ok (Some (lat, lon)) ->
        float_truthy lat = true ->
        float_truthy lon = true ->
        get_weather_data env (Some lat) (Some lon) w = (Ok current_weather, w1) ->
        get_forecast_data env (Some lat) (Some lon) forecast_days w1 =
          (Ok forecast, w2) ->
        current_fields current_weather temp descr hum speed ->
        bind_float env temp = Ok t -> bind_string env descr = Ok d ->
        bind_float env hum = Ok h -> bind_float env speed = Ok sp ->
        fst (get_weather env data w) =
          Ok (jsonify 200
                (JDict [("current", current_weather); ("forecast", forecast);
                        ("places", JNull)]))).
Proof.
  intros env Hkey.
  assert (Hnone : forall lat lon count w,
             get_google_maps_data env lat lon count w = (Ok JNull, w)).
  { intros lat lon count w. unfold get_google_maps_data, no_maps_key.
    destruct Hkey as [-> | ->]; reflexivity. }
  split; [exact Hnone|].
  intros data s fd pc forecast_days places_count lat lon w w1 w2
         current_weather forecast temp descr hum speed t d h sp
         H1 H2 H3 H4 H5 H6 H7 H8 H9 H10 H11 H12 H13 H14 H15 H16.
  rewrite (get_weather_succeeds env data s fd pc forecast_days places_count
             lat lon w w1 w2 w2 current_weather forecast JNull
             temp descr hum speed t d h sp); auto.
Qed.

Lemma places_unavailable_paris :
  (forall lat lon count w,
      get_google_maps_data Sample.env lat lon count w = (Ok JNull, w)) /\
  fst (get_weather Sample.env Sample.paris_request Sample.empty_world) =
    Ok (jsonify 200
          (JDict [("current", Sample.current_paris);
                  ("forecast", Sample.forecast_paris);
                  ("places", JNull)])).
Proof.
  destruct (places_unavailable_without_key Sample.env (or_introl eq_refl))
    as [Hnone Hlookup].
  split; [exact Hnone|].
  refine (Hlookup Sample.paris_request "Paris" (JInt 3) (JInt 2) 3 2
            Sample.lat_paris Sample.lon_paris Sample.empty_world
            (snd (get_weather_data Sample.env (Some Sample.lat_paris)
                    (Some Sample.lon_paris) Sample.empty_world))
            _ Sample.current_paris Sample.forecast_paris
            (JFloat Sample.temp_paris) (JStr "clear sky") (JInt 60)
            (JFloat Sample.wind_paris)
            (Some Sample.temp_paris) (Some "clear sky")
            (Some Sample.hum_paris) (Some Sample.wind_paris)
            _ _ _ _ _ _ _ _ _ _ _ _ _ _ _ _);
    try reflexivity; try discriminate.
  unfold current_fields.
  exists (JDict [("temp", JFloat Sample.temp_paris); ("humidity", JInt 60)]),
    (JList [JDict [("description", JStr "clear sky")]]),
    (JDict [("description", JStr "clear sky")]),
    (JDict [("speed", JFloat Sample.wind_paris)]).
  repeat split; reflexivity.
Defined.

(** With a key the helper does ask the provider. *)
Lemma places_requested_with_key :
  forall env k lat lon count w,
    GOOGLE_MAPS_API_KEY env = Some k -> k <> "" ->
    sent (snd (get_google_maps_data env lat lon count w)) <> sent w.
Proof.
  intros env k lat lon count w Hk Hne.
  unfold get_google_maps_data, no_maps_key. rewrite Hk.
  apply String.eqb_neq in Hne. rewrite Hne.
  unfold bind, requests_get_json, lift, ret.
  assert (Hgrow : forall (l : list string) x, l ++ [x] <> l).
  { intros l x E. apply (f_equal (@List.length string)) in E.
    rewrite List.length_app in E. simpl in E. lia. }
  destruct (http_json env (sent w) _) as [d|e]; simpl; [|apply Hgrow].
  destruct (py_contains "results" d) as [[|]|e]; simpl; try apply Hgrow.
  destruct (py_getitem d "results") as [v|e]; simpl; try apply Hgrow.
  destruct (py_slice_to v count) as [v'|e]; simpl; apply Hgrow.
Qed.

(** A lookup whose place the geocoder does not know is answered 404. *)
Lemma unknown_location_is_rejected :
  forall env data loc fd pc forecast_days places_count w,
    py_get data "location" JNull = Ok loc ->
    truthy loc = true ->
    py_get data "forecastDays" (JInt 5) = Ok fd ->
    py_int env fd = Ok forecast_days ->
    py_get data "placesCount" (JInt 5) = Ok pc ->
    py_int env pc = Ok places_count ->
    geocode env loc = Ok None ->
    get_weather env data w =
      (Ok (jsonify 404 (JDict [("error", JStr "Could not find location")])), w).
Proof.
  intros env data loc fd pc forecast_days places_count w
         Hloc Ht Hfd Hfdi Hpc Hpci Hgeo.
  unfold get_weather, bind, lift.
  rewrite Hloc, Hfd, Hfdi, Hpc, Hpci, Ht. cbn [negb].
  unfold get_coordinates, bind, lift, ret. rewrite Hgeo. reflexivity.
Qed.

(** C2 (the code departs from it). When the geocoder does return a pair of
    coordinates but one of them is a zero, the lookup is answered 404 "Could
    not find location" all the same: it does not proceed past geocoding,
    sends no request and stores nothing. *)
Theorem zero_coordinate_is_rejected :
  forall env data loc fd pc forecast_days places_count lat lon w,
    py_get data "location" JNull = Ok loc ->
    truthy loc = true ->
    py_get data "forecastDays" (JInt 5) = Ok fd ->
    py_int env fd = Ok forecast_days ->
    py_get data "placesCount" (JInt 5) = Ok pc ->
    py_int env pc = Ok places_count ->
    geocode env loc = Ok (Some (lat, lon)) ->
    float_truthy lat = false \/ float_truthy lon = false ->
    get_weather env data w =
      (Ok (jsonify 404 (JDict [("error", JStr "Could not find location")])), w).
Proof.
  intros env data loc fd pc forecast_days places_count lat lon w
         Hloc Ht Hfd Hfdi Hpc Hpci Hgeo Hzero.
  unfold get_weather, bind, lift.
  rewrite Hloc, Hfd, Hfdi, Hpc, Hpci, Ht. cbn [negb].
  unfold get_coordinates, bind, lift, ret. rewrite Hgeo.
  cbn [fst snd opt_float_truthy].
  destruct Hzero as [-> | ->]; cbn [negb orb];
    [|rewrite Bool.orb_true_r]; reflexivity.
Qed.

Lemma zero_coordinate_is_rejected_equator :
  get_weather Sample.env (JDict [("location", JStr "Equator")])
    Sample.empty_world =
    (Ok (jsonify 404 (JDict [("error", JStr "Could not find location")])),
     Sample.empty_world).
Proof.
  apply (zero_coordinate_is_rejected Sample.env
           (JDict [("location", JStr "Equator")]) (JStr "Equator")
           (JInt 5) (JInt 5) 5 5 (S754_zero false) Sample.lon_paris
           Sample.empty_world); try reflexivity.
  left; reflexivity.
Defined.

(** ** The record table *)

Lemma query_get_id :
  forall i rows r, query_get i rows = Some r -> id r = i.
Proof.
  intros i rows r H. unfold query_get in H.
  apply find_some in H. destruct H as [_ H]. apply Z.eqb_eq in H. exact H.
Qed.

Lemma query_get_In :
  forall i rows r, query_get i rows = Some r -> In r rows.
Proof.
  intros i rows r H. unfold query_get in H. apply find_some in H. tauto.
Qed.


Lemma delete_row_ids :
  forall i rows r, In r (delete_row i rows) -> In r rows /\ id r <> i.
Proof.
  intros i rows r H. unfold delete_row in H. apply filter_In in H.
  destruct H as [Hin Hne]. split; [exact Hin|].
  apply Bool.negb_true_iff in Hne. apply Z.eqb_neq in Hne. exact Hne.
Qed.


Lemma query_get_update_row_same :
  forall i rows r r',
    query_get i rows = Some r -> id r' = i ->
    query_get i (update_row r' rows) = Some r'.
Proof.
  intros i rows r r' H Hid. subst i.
  induction rows as [|x t IH]; [discriminate|].
  simpl in *. destruct (id x =? id r') eqn:E.
  - rewrite Z.eqb_refl. reflexivity.
  - rewrite E. apply IH. exact H.
Qed.

Lemma query_get_update_row_other :
  forall j rows r',
    j <> id r' -> query_get j (update_row r' rows) = query_get j rows.
Proof.
  intros j rows r' Hne. induction rows as [|x t IH]; [reflexivity|].
  simpl. destruct (id x =? id r') eqn:E.
  - apply Z.eqb_eq in E.
    assert (E1 : (id r' =? j) = false) by (apply Z.eqb_neq; congruence).
    assert (E2 : (id x =? j) = false) by (apply Z.eqb_neq; congruence).
    rewrite E1, E2. exact IH.
  - destruct (id x =? j); [reflexivity | exact IH].
Qed.

(** *** Listing *)

Lemma lex_leb_total :
  forall a b, lex_leb a b = false -> lex_leb b a = true.
Proof.
  induction a as [|x a IH]; intros b H; [discriminate|].
  destruct b as [|y b]; [reflexivity|].
  simpl in *. apply Bool.orb_false_iff in H. destruct H as [Hlt H].
  apply Nat.ltb_ge in Hlt.
  destruct (Nat.eq_dec x y) as [->|Hne].
  - rewrite Nat.eqb_refl in *. simpl in H. rewrite (IH _ H).
    apply Bool.orb_true_r.
  - assert (Hyx : (y <? x)%nat = true) by (apply Nat.ltb_lt; lia).
    rewrite Hyx. reflexivity.
Qed.

Lemma lex_leb_trans :
  forall a b c, lex_leb a b = true -> lex_leb b c = true -> lex_leb a c = true.
Proof.
  induction a as [|x a IH]; intros b c Hab Hbc; [reflexivity|].
  destruct b as [|y b]; [discriminate|].
  destruct c as [|z c]; [discriminate|].
  simpl in *.
  apply Bool.orb_true_iff in Hab. apply Bool.orb_true_iff in Hbc.
  apply Bool.orb_true_iff.
  destruct Hab as [Hab|Hab]; destruct Hbc as [Hbc|Hbc].
  - left. apply Nat.ltb_lt in Hab, Hbc. apply Nat.ltb_lt. lia.
  - apply Bool.andb_true_iff in Hbc. destruct Hbc as [Hyz _].
    apply Nat.eqb_eq in Hyz. subst z. left. exact Hab.
  - apply Bool.andb_true_iff in Hab. destruct Hab as [Hxy _].
    apply Nat.eqb_eq in Hxy. subst y. left. exact Hbc.
  - apply Bool.andb_true_iff in Hab. apply Bool.andb_true_iff in Hbc.
    destruct Hab as [Hxy Hab], Hbc as [Hyz Hbc].
    apply Nat.eqb_eq in Hxy, Hyz. subst y z. right.
    rewrite Nat.eqb_refl. simpl. apply (IH b c); assumption.
Qed.

Lemma insert_desc_perm :
  forall r l, Permutation (insert_desc r l) (r :: l).
Proof.
  intros r l. induction l as [|x t IH]; simpl; [apply Permutation_refl|].
  destruct (dt_leb (created_at x) (created_at r)).
  - apply Permutation_refl.
  - eapply Permutation_trans; [apply perm_skip; exact IH | apply perm_swap].
Qed.

Lemma order_by_perm :
  forall rows, Permutation (order_by_created_at_desc rows) rows.
Proof.
  induction rows as [|r t IH]; simpl; [constructor|].
  eapply Permutation_trans; [apply insert_desc_perm | apply perm_skip; exact IH].
Qed.

Lemma insert_desc_sorted :
  forall r l,
    StronglySorted newer_or_equal l ->
    StronglySorted newer_or_equal (insert_desc r l).
Proof.
  intros r l Hs. induction Hs as [|x t Hs IH Hall]; simpl.
  - constructor; constructor.
  - destruct (dt_leb (created_at x) (created_at r)) eqn:E.
    + constructor; [constructor; assumption|].
      constructor; [exact E|].
      eapply Forall_impl; [|exact Hall].
      intros y Hy. unfold newer_or_equal, dt_leb in *.
      eapply lex_leb_trans; eassumption.
    + constructor; [exact IH|].
      eapply Permutation_Forall; [apply Permutation_sym, insert_desc_perm|].
      constructor; [|exact Hall].
      unfold newer_or_equal, dt_leb in *. apply lex_leb_total. exact E.
Qed.

Lemma order_by_sorted :
  forall rows, StronglySorted newer_or_equal (order_by_created_at_desc rows).
Proof.
  induction rows as [|r t IH]; simpl; [constructor|].
  apply insert_desc_sorted. exact IH.
Qed.

Lemma record_json_shows_row :
  forall rs, Forall2 shows_row (map record_json rs) rs.
Proof.
  induction rs as [|r t IH]; simpl; constructor; [|exact IH].
  unfold shows_row. repeat split; reflexivity.
Qed.

(** C5. The list operation answers 200 with one object per row of the
    table, newest [created_at] first, whatever the table holds and in
    whatever order its rows were inserted: the rows it lists are a
    permutation of the table, sorted, and the objects of the response, in
    that order, give each row's id, location, date, temperature,
    description, humidity and wind speed under these keys. It leaves the
    world as it was. *)
Theorem list_is_newest_first :
  forall w : World,
    exists (rs : list WeatherRecord) (objs : list json),
      get_records w = (Ok (jsonify 200 (JList objs)), w) /\
      Forall2 shows_row objs rs /\
      Permutation rs (store w) /\
      StronglySorted newer_or_equal rs.
Proof.
  intros w. exists (order_by_created_at_desc (store w)).
  exists (map record_json (order_by_created_at_desc (store w))).
  split; [reflexivity|]. split; [apply record_json_shows_row|].
  split; [apply order_by_perm | apply order_by_sorted].
Qed.

(** *** Missing ids and deletion *)

(** On a table whose ids all fit SQLite's INTEGER, as every table the
    database holds, [get_or_404] is the lookup that binds its parameter
    first: an id that does not fit raises [OverflowError], any other id is
    found or answered 404. *)
Lemma get_or_404_binds_first :
  forall i w,
    (forall r, In r (store w) -> fits_int64 (id r) = true) ->
    get_or_404 i w =
      if fits_int64 i then
        match query_get i (store w) with
        | Some r => (Ok r, w)
        | None => (Raise (HTTPException 404), w)
        end
      else (Raise OverflowError, w).
Proof.
  intros i w Hfit. unfold get_or_404.
  destruct (query_get i (store w)) as [r|] eqn:Hq; [|reflexivity].
  rewrite <- (query_get_id _ _ _ Hq).
  rewrite (Hfit r (query_get_In _ _ _ Hq)). reflexivity.
Qed.




(** *** Partial update *)

Lemma assign_if_present_value :
  forall key data set o w,
    (exists a,
        supplied key data a /\
        assign_if_present key data set o w =
          (Ok (match a with Some v => set o v | None => o end), w)) \/
    (exists e, assign_if_present key data set o w = (Raise e, w)).
Proof.
  intros key data set o w. unfold assign_if_present, bind, lift, ret, supplied.
  destruct (py_contains key data) as [[|]|e].
  - destruct (py_getitem data key) as [v|e].
    + left. exists (Some v). split; [|reflexivity].
      right. exists v. repeat split; reflexivity.
    + right. exists e. reflexivity.
  - left. exists None. split; [|reflexivity]. left. split; reflexivity.
  - right. exists e. reflexivity.
Qed.

Lemma flush_update_cases :
  forall env o,
    flush_update env o = Raise DatabaseError \/
    exists r',
      flush_update env o = Ok r' /\
      id r' = id (row o) /\ latitude r' = latitude (row o) /\
      longitude r' = longitude (row o) /\ date r' = date (row o) /\
      humidity r' = humidity (row o) /\ wind_speed r' = wind_speed (row o) /\
      created_at r' = created_at (row o) /\
      update_string env (Some (location (row o))) (assigned_location o) =
        Ok (Some (location r')) /\
      update_float env (temperature (row o)) (assigned_temperature o) =
        Ok (temperature r') /\
      update_string env (description (row o)) (assigned_description o) =
        Ok (description r').
Proof.
  intros env o. unfold flush_update.
  destruct (update_string env (Some (location (row o))) (assigned_location o))
    as [[loc|]|]; try (left; reflexivity).
  destruct (update_float env (temperature (row o)) (assigned_temperature o))
    as [temp|]; try (left; reflexivity).
  destruct (update_string env (description (row o)) (assigned_description o))
    as [descr|]; try (left; reflexivity).
  right. eexists. split; [reflexivity|]. cbn. repeat split; reflexivity.
Qed.

(** One guarded assignment of the running update, split into its cases. *)
Ltac assign_value_step :=
  match goal with
  | |- context [assign_if_present ?k ?d ?s ?r0 ?w0] =>
      let a := fresh "a" in
      let C := fresh "C" in
      let E := fresh "E" in
      let e := fresh "e" in
      destruct (assign_if_present_value k d s r0 w0)
        as [(a & C & E) | (e & E)];
      rewrite E; cbv beta iota
  end.

(** The update of a row that exists, by its outcome: it raises and leaves
    the world as it was, or it answers 200 and leaves a row made of the
    columns no update writes and of what the three columns it can write
    make of the values the request supplies. *)
Lemma update_record_cases :
  forall env i data w r,
    query_get i (store w) = Some r ->
    (exists e, update_record env i data w = (Raise e, w)) \/
    (exists r' al at_ ad,
        update_record env i data w =
          (Ok (jsonify 200
                 (JDict [("message", JStr "Record updated successfully")])),
           {| store := update_row r' (store w); sent := sent w;
              clock := clock w |}) /\
        same_fixed_columns r r' /\
        supplied "location" data al /\
        supplied "temperature" data at_ /\
        supplied "description" data ad /\
        update_string env (Some (location r)) al = Ok (Some (location r')) /\
        update_float env (temperature r) at_ = Ok (temperature r') /\
        update_string env (description r) ad = Ok (description r')).
Proof.
  intros env i data w r H.
  unfold update_record, bind, get_or_404. rewrite H.
  repeat assign_value_step; try (left; eexists; reflexivity).
  unfold session_commit_update, ret.
  match goal with
  | |- context [flush_update env ?o] =>
      destruct (flush_update_cases env o)
        as [Ef | (r' & Ef & I1 & I2 & I3 & I4 & I5 & I6 & I7 & U1 & U2 & U3)];
      rewrite Ef
  end; [left; eexists; reflexivity|].
  right. exists r', a, a0, a1.
  split; [reflexivity|].
  destruct a, a0, a1; cbn in I1, I2, I3, I4, I5, I6, I7, U1, U2, U3;
    (split; [unfold same_fixed_columns; repeat split; assumption|]);
    repeat split; assumption.
Qed.

Lemma same_fixed_columns_refl : forall r, same_fixed_columns r r.
Proof. intros r. unfold same_fixed_columns. repeat split; reflexivity. Qed.

Lemma not_supplied :
  forall key data a,
    supplied key data a -> py_contains key data <> Ok true -> a = None.
Proof.
  intros key data a [[_ Ha] | (v & Hc & _)] Hn; [exact Ha | congruence].
Qed.

Lemma update_record_outcome :
  forall env i data w r,
    query_get i (store w) = Some r ->
    exists r',
      ((exists e, update_record env i data w = (Raise e, w)) \/
       update_record env i data w =
         (Ok (jsonify 200
                (JDict [("message", JStr "Record updated successfully")])),
          {| store := update_row r' (store w); sent := sent w;
             clock := clock w |})) /\
      same_fixed_columns r r' /\
      (py_contains "location" data <> Ok true -> location r' = location r) /\
      (py_contains "temperature" data <> Ok true ->
       temperature r' = temperature r) /\
      (py_contains "description" data <> Ok true ->
       description r' = description r).
Proof.
  intros env i data w r H.
  destruct (update_record_cases env i data w r H)
    as [(e & E) | (r' & al & at_ & ad & E & Hfix & S1 & S2 & S3 & U1 & U2 & U3)].
  - exists r. split; [left; exists e; exact E|].
    split; [apply same_fixed_columns_refl|]. repeat split; reflexivity.
  - exists r'. split; [right; exact E|]. split; [exact Hfix|].
    split; [|split]; intros Hn.
    + rewrite (not_supplied _ _ _ S1 Hn) in U1. cbn in U1. congruence.
    + rewrite (not_supplied _ _ _ S2 Hn) in U2. cbn in U2. congruence.
    + rewrite (not_supplied _ _ _ S3 Hn) in U3. cbn in U3. congruence.
Qed.

(** A string assigned to a [String] column is what the column then
    holds. *)
Lemma update_string_str :
  forall env old s x,
    update_string env old (Some (JStr s)) = Ok x -> x = Some s.
Proof.
  intros env old s x H. cbn in H.
  destruct old as [o|]; cbn in H; [|congruence].
  destruct (o =? s)%string eqn:E; [|cbn in H; congruence].
  apply String.eqb_eq in E. congruence.
Qed.

(** A number a float holds exactly, assigned to a [Float] column, leaves
    a float equal to it. *)
Lemma update_float_exact :
  forall env old v x,
    update_float env old (Some v) = Ok x -> exact_number v = true ->
    same_float x v = true.
Proof.
  intros env old v x H He. cbn in H.
  destruct (same_float old v) eqn:E.
  - inversion H; subst. exact E.
  - apply (bind_float_exact env); assumption.
Qed.

Lemma update_description_only :
  forall env i w r x,
    query_get i (store w) = Some r ->
    update_record env i (JDict [("description", JStr x)]) w =
      (Ok (jsonify 200
             (JDict [("message", JStr "Record updated successfully")])),
       {| store := update_row (with_description r (Some x)) (store w);
          sent := sent w; clock := clock w |}).
Proof.
  intros env i w r x H.
  unfold update_record, bind, get_or_404. rewrite H. cbn.
  unfold session_commit_update, flush_update.
  cbn [row loaded set_description assigned_location assigned_temperature
       assigned_description update_float].
  change (update_string env (Some (location r)) None)
    with (Ok (A := option string) (Some (location r))).
  cbv iota beta.
  destruct (update_string env (description r) (Some (JStr x))) as [dx|e] eqn:E.
  - apply update_string_str in E. subst dx. reflexivity.
  - exfalso. cbn in E. destruct (same_text (description r) (JStr x));
      discriminate E.
Qed.

Lemma update_frame :
  forall env i data w r,
    query_get i (store w) = Some r ->
    exists r',
      query_get i (store (snd (update_record env i data w))) = Some r' /\
      same_fixed_columns r r' /\
      (py_contains "location" data <> Ok true -> location r' = location r) /\
      (py_contains "temperature" data <> Ok true ->
       temperature r' = temperature r) /\
      (py_contains "description" data <> Ok true ->
       description r' = description r) /\
      (forall j, j <> i ->
         query_get j (store (snd (update_record env i data w))) =
         query_get j (store w)).
Proof.
  intros env i data w r H.
  destruct (update_record_outcome env i data w r H)
    as (r' & [(e & E) | E] & Hfix & Hl & Ht & Hd); rewrite E; cbn [snd store].
  - exists r. split; [exact H|]. split; [apply same_fixed_columns_refl|].
    repeat split; reflexivity.
  - assert (Hid : id r' = i).
    { destruct Hfix as [Hid _]. rewrite Hid. apply (query_get_id _ _ _ H). }
    exists r'. split; [apply (query_get_update_row_same i _ r); assumption|].
    split; [exact Hfix|]. repeat split; try assumption.
    intros j Hj. apply query_get_update_row_other. congruence.
Qed.

(** C4. For a row that exists, whatever the update request holds and
    however the update ends, the row keeps its id, latitude, longitude,
    date, humidity, wind speed and creation time; each of location,
    temperature and description that the request does not supply keeps its
    value; every other row is left as it was. In particular the request
    [{"description": "X"}] changes the row's description to ["X"] and
    nothing else. *)
Theorem update_changes_only_supplied_fields :
  forall env i data w r,
    query_get i (store w) = Some r ->
    let w' := snd (update_record env i data w) in
    exists r',
      query_get i (store w') = Some r' /\
      same_fixed_columns r r' /\
      (py_contains "location" data <> Ok true -> location r' = location r) /\
      (py_contains "temperature" data <> Ok true ->
       temperature r' = temperature r) /\
      (py_contains "description" data <> Ok true ->
       description r' = description r) /\
      (forall j, j <> i -> query_get j (store w') = query_get j (store w)) /\
      (forall x, data = JDict [("description", JStr x)] ->
                 r' = with_description r (Some x)).
Proof.
  intros env i data w r H w'. subst w'.
  destruct (update_frame env i data w r H)
    as (r' & Hq & Hfix & Hl & Ht & Hd & Ho).
  exists r'.
  split; [exact Hq|]. split; [exact Hfix|]. split; [exact Hl|].
  split; [exact Ht|]. split; [exact Hd|]. split; [exact Ho|].
  intros x ->.
  rewrite (update_description_only env i w r x H) in Hq. cbn [snd store] in Hq.
  rewrite (query_get_update_row_same i _ r) in Hq;
    [congruence | exact H | apply (query_get_id _ _ _ H)].
Qed.

Lemma update_changes_only_supplied_fields_paris :
  exists r',
    query_get 1
      (store (snd (update_record Sample.env 1 (JDict [("description", JStr "X")])
                     Sample.one_row_world))) = Some r' /\
    description r' = Some "X" /\
    location r' = "Paris" /\
    temperature r' = Some Sample.temp_paris /\
    humidity r' = Some Sample.hum_paris.
Proof.
  destruct (update_changes_only_supplied_fields Sample.env 1
              (JDict [("description", JStr "X")]) Sample.one_row_world
              paris_row eq_refl)
    as (r' & Hq & Hfix & Hl & Ht & Hd & Ho & Hx).
  exists r'. split; [exact Hq|].
  rewrite (Hx "X" eq_refl). repeat split; reflexivity.
Defined.

(** ** Export: the JSON objects *)

Lemma matches_app :
  forall p1 p2 s1 s2,
    matches p1 s1 = true -> matches p2 s2 = true ->
    matches (p1 ++ p2) (s1 ++ s2)%string = true.
Proof.
  induction p1 as [|[|k] p1 IH]; intros p2 s1 s2 H1 H2;
    destruct s1 as [|c s1]; simpl in *; try discriminate; try assumption;
    apply Bool.andb_true_iff in H1; destruct H1 as [Hc H1];
    rewrite Hc; simpl; apply IH; assumption.
Qed.

Lemma zfill2_shape :
  forall n, Z.of_nat n < 100 -> matches [Digit; Digit] (zfill 2 n) = true.
Proof.
  assert (H : forallb (fun n => matches [Digit; Digit] (zfill 2 n))
                (seq 0 (Z.to_nat 100)) = true) by (vm_compute; reflexivity).
  intros n Hn. rewrite forallb_forall in H. apply H. apply in_seq. lia.
Qed.

Lemma zfill4_shape :
  forall n, Z.of_nat n < 10000 ->
    matches [Digit; Digit; Digit; Digit] (zfill 4 n) = true.
Proof.
  assert (H : forallb (fun n => matches [Digit; Digit; Digit; Digit] (zfill 4 n))
                (seq 0 (Z.to_nat 10000)) = true) by (vm_compute; reflexivity).
  intros n Hn. rewrite forallb_forall in H. apply H. apply in_seq. lia.
Qed.

Lemma decimal4_shape :
  forall n, 1000 <= Z.of_nat n < 10000 ->
    matches [Digit; Digit; Digit; Digit] (decimal n) = true.
Proof.
  assert (H : forallb (fun n => matches [Digit; Digit; Digit; Digit] (decimal n))
                (seq (Z.to_nat 1000) (Z.to_nat 9000)) = true)
    by (vm_compute; reflexivity).
  intros n Hn. rewrite forallb_forall in H. apply H. apply in_seq. lia.
Qed.

Lemma strftime_shape :
  forall d,
    valid_datetime d -> 1000 <= Z.of_nat (year d) ->
    matches timestamp_pattern (strftime d) = true.
Proof.
  intros d (Hy & Hm & Hd & Hh & Hmi & Hs & _) Hy'.
  unfold strftime.
  change timestamp_pattern with
    ([Digit; Digit; Digit; Digit] ++ [Char "-"] ++ [Digit; Digit] ++
     [Char "-"] ++ [Digit; Digit] ++ [Char " "] ++ [Digit; Digit] ++
     [Char ":"] ++ [Digit; Digit] ++ [Char ":"] ++ [Digit; Digit]).
  repeat (apply matches_app;
          [first [apply decimal4_shape; lia | apply zfill2_shape; lia
                 | reflexivity] |]).
  apply zfill2_shape; lia.
Qed.

(** C7 as the specification words it fails: the object exported for the
    one row of the sample table has no key "Temperature". *)
Lemma export_json_keys_are_not_the_spec_keys :
  exists kvs,
    In (JDict kvs) (exported_objects Sample.one_row_world) /\
    ~ (forall k, In k (map fst kvs) <-> In k spec_export_keys).
Proof.
  eexists. split; [left; reflexivity|].
  intros Hall. destruct (Hall "Temperature") as [_ H].
  assert (Hin : In "Temperature" spec_export_keys)
    by (right; right; left; reflexivity).
  specialize (H Hin). cbn in H.
  repeat (destruct H as [H|H]; [discriminate H|]). exact H.
Qed.

(** C7, amended. The JSON export answers 200 with an array that holds one
    object per row of the table, newest first; the keys of each object are
    Location, Date, Temperature (°C), Description, Humidity (%) and
    Wind Speed (m/s), in this order, and its Date is the date of the row
    written as YYYY-MM-DD HH:MM:SS, for a date from the year 1000 on (the
    year of an earlier date is written with fewer than four digits). *)
Theorem export_json_objects :
  forall w : World,
    (forall r, In r (store w) ->
       valid_datetime (date r) /\ 1000 <= Z.of_nat (year (date r))) ->
    exists rs : list WeatherRecord,
      export_data "json" w =
        (Ok (jsonify 200 (JList (map JDict (map export_row rs)))), w) /\
      Permutation rs (store w) /\
      StronglySorted newer_or_equal rs /\
      forall r, In r rs ->
        map fst (export_row r) = export_keys /\
        dict_lookup "Date" (export_row r) = Some (JStr (strftime (date r))) /\
        matches timestamp_pattern (strftime (date r)) = true.
Proof.
  intros w Hvalid. exists (order_by_created_at_desc (store w)).
  split; [reflexivity|]. split; [apply order_by_perm|].
  split; [apply order_by_sorted|].
  intros r Hr. split; [reflexivity|]. split; [reflexivity|].
  apply strftime_shape; apply Hvalid;
    apply (Permutation_in _ (order_by_perm _)); exact Hr.
Qed.

Lemma export_json_objects_sample :
  exists rs : list WeatherRecord,
    export_data "json" Sample.two_row_world =
      (Ok (jsonify 200 (JList (map JDict (map export_row rs)))),
       Sample.two_row_world) /\
    Permutation rs (store Sample.two_row_world) /\
    StronglySorted newer_or_equal rs /\
    forall r, In r rs ->
      map fst (export_row r) = export_keys /\
      dict_lookup "Date" (export_row r) = Some (JStr (strftime (date r))) /\
      matches timestamp_pattern (strftime (date r)) = true.
Proof.
  apply (export_json_objects Sample.two_row_world).
  intros r [<- | [<- | []]]; unfold valid_datetime; cbn; lia.
Defined.

(** * Further properties of the routes *)

(** ** Every way a lookup can end *)

Lemma get_coordinates_world :
  forall env location w r w',
    get_coordinates env location w = (r, w') -> w' = w.
Proof.
  intros env location w r w' H.
  unfold get_coordinates, bind, lift, ret in H.
  destruct (geocode env location) as [[[? ?]|]|?]; inversion H; reflexivity.
Qed.

Lemma get_weather_cases :
  forall env data w,
    (exists e,
        get_weather env data w = (Raise e, w) /\
        (py_get data "location" JNull = Raise e \/
         (exists v, py_get data "forecastDays" (JInt 5) = Ok v /\
                    py_int env v = Raise e) \/
         (exists v, py_get data "placesCount" (JInt 5) = Ok v /\
                    py_int env v = Raise e) \/
         (exists loc, py_get data "location" JNull = Ok loc /\
                      geocode env loc = Raise e))) \/
    (get_weather env data w =
       (Ok (jsonify 400 (JDict [("error", JStr "Location is required")])), w) /\
     exists loc, py_get data "location" JNull = Ok loc /\ truthy loc = false) \/
    (get_weather env data w =
       (Ok (jsonify 404 (JDict [("error", JStr "Could not find location")])), w) /\
     exists loc,
       py_get data "location" JNull = Ok loc /\ truthy loc = true /\
       (geocode env loc = Ok None \/
        exists lat lon,
          geocode env loc = Ok (Some (lat, lon)) /\
          (float_truthy lat = false \/ float_truthy lon = false))) \/
    (exists e w',
        get_weather env data w =
          (Ok (jsonify 500 (JDict [("error", JStr (str_exn env e))])), w') /\
        store w' = store w) \/
    (exists cw fc pl r w',
        get_weather env data w =
          (Ok (jsonify 200
                 (JDict [("current", cw); ("forecast", fc); ("places", pl)])),
           w') /\
        store w' = store w ++ [r] /\
        id r = next_id (store w) /\
        (exists loc,
            py_get data "location" JNull = Ok loc /\
            bind_string env loc = Ok (Some (location r))) /\
        date r = utcnow env (clock w) /\
        created_at r = utcnow env (S (clock w))).
Proof.
  intros env data w. unfold get_weather, bind, lift.
  destruct (py_get data "location" JNull) as [location|e] eqn:Eloc;
    [|left; exists e; split; [reflexivity | left; reflexivity]].
  destruct (py_get data "forecastDays" (JInt 5)) as [fd|e] eqn:Efd.
  2:{ destruct data; simpl in Eloc, Efd; try discriminate.
      destruct (dict_lookup "forecastDays" kvs); discriminate. }
  destruct (py_int env fd) as [forecast_days|e] eqn:Efdi;
    [|left; exists e; split;
      [reflexivity | right; left; exists fd; split; [reflexivity | assumption]]].
  destruct (py_get data "placesCount" (JInt 5)) as [pc|e] eqn:Epc.
  2:{ destruct data; simpl in Eloc, Epc; try discriminate.
      destruct (dict_lookup "placesCount" kvs); discriminate. }
  destruct (py_int env pc) as [places_count|e] eqn:Epci;
    [|left; exists e; split;
      [reflexivity
      | right; right; left; exists pc; split; [reflexivity | assumption]]].
  destruct (truthy location) eqn:Etr; cbn [negb];
    [|right; left; split;
      [reflexivity | exists location; split; [reflexivity | exact Etr]]].
  destruct (get_coordinates env location w) as [[[lat lon]|e] w0] eqn:Eg.
  2:{ left. exists e.
      rewrite (get_coordinates_world _ _ _ _ _ Eg). split; [reflexivity|].
      right; right; right. exists location. split; [reflexivity|].
      unfold get_coordinates, bind, lift, ret in Eg.
      destruct (geocode env location) as [[[? ?]|]|?]; inversion Eg; reflexivity. }
  rewrite (get_coordinates_world _ _ _ _ _ Eg). cbn [fst snd].
  destruct (negb (opt_float_truthy lat) || negb (opt_float_truthy lon)) eqn:Ez.
  { right; right; left. split; [reflexivity|].
    exists location. split; [reflexivity|]. split; [exact Etr|].
    unfold get_coordinates, bind, lift, ret in Eg.
    destruct (geocode env location) as [[[la lo]|]|?]; inversion Eg; subst;
      [right | left; reflexivity].
    exists la, lo. split; [reflexivity|]. cbn in Ez.
    apply Bool.orb_true_iff in Ez.
    destruct Ez as [Ez|Ez]; apply Bool.negb_true_iff in Ez; auto. }
  right; right; right.
  unfold try_except, bind, lift, ret.
  destruct (get_weather_data env lat lon w) as [[cw|e] w1] eqn:E1;
    destruct (requests_get_json_frame _ _ _ _ _ E1) as [S1 K1];
    [|left; exists e, w1; split; [reflexivity | exact S1]].
  destruct (get_forecast_data env lat lon forecast_days w1)
    as [[fc|e] w2] eqn:E2;
    destruct (requests_get_json_frame _ _ _ _ _ E2) as [S2 K2];
    [|left; exists e, w2; split; [reflexivity | congruence]].
  destruct (get_google_maps_data env lat lon places_count w2)
    as [[pl|e] w3] eqn:E3;
    destruct (get_google_maps_data_frame _ _ _ _ _ _ _ E3) as [S3 K3];
    [|left; exists e, w3; split; [reflexivity | congruence]].
  unfold datetime_utcnow at 1.
  assert (Hst : store w3 = store w) by congruence.
  assert (Hck : clock w3 = clock w) by congruence.
  repeat match goal with
         | |- context [match py_getitem ?a ?k with _ => _ end] =>
             destruct (py_getitem a k);
             [|left; eexists; eexists; split; [reflexivity | exact Hst]]
         | |- context [match py_getitem0 ?a with _ => _ end] =>
             destruct (py_getitem0 a);
             [|left; eexists; eexists; split; [reflexivity | exact Hst]]
         end.
  unfold session_add_commit, bind, datetime_utcnow. cbn [store sent clock].
  destruct (insert_row env _ _ _) as [r|e] eqn:Hins;
    [|left; eexists; eexists; split; [reflexivity | exact Hst]].
  apply insert_row_ok in Hins.
  destruct Hins as (Hid & Hdate & Hcreated & Hloc & _).
  cbn [new_location new_date] in Hloc, Hdate.
  right. exists cw, fc, pl, r. eexists. split; [reflexivity|]. cbn [store].
  rewrite Hst. split; [reflexivity|].
  split; [rewrite Hid, Hst; reflexivity|].
  split; [exists location; split; [reflexivity | exact Hloc]|].
  split; [rewrite Hdate, Hck; reflexivity|].
  rewrite Hcreated, Hck. reflexivity.
Qed.

(** A lookup lets an exception escape only from the three steps that come
    before its [try]: reading the body (which must be a JSON object),
    converting [forecastDays] and [placesCount] with [int], and geocoding.
    The exception leaves the world as it was. *)
Theorem lookup_exception_causes :
  forall env data w e w',
    get_weather env data w = (Raise e, w') ->
    w' = w /\
    (py_get data "location" JNull = Raise e \/
     (exists v, py_get data "forecastDays" (JInt 5) = Ok v /\
                py_int env v = Raise e) \/
     (exists v, py_get data "placesCount" (JInt 5) = Ok v /\
                py_int env v = Raise e) \/
     (exists loc, py_get data "location" JNull = Ok loc /\
                  geocode env loc = Raise e)).
Proof.
  intros env data w e w' H.
  destruct (get_weather_cases env data w)
    as [(e0 & E & Hc) | [(E & _) | [(E & _) | [(e0 & w0 & E & _)
       | (cw & fc & pl & r & w0 & E & _)]]]];
    rewrite E in H; inversion H; subst; auto.
Qed.

Lemma lookup_exception_causes_array_body :
  Sample.empty_world = Sample.empty_world /\
  (py_get (JList []) "location" JNull = Raise AttributeError \/
   (exists v, py_get (JList []) "forecastDays" (JInt 5) = Ok v /\
              py_int Sample.env v = Raise AttributeError) \/
   (exists v, py_get (JList []) "placesCount" (JInt 5) = Ok v /\
              py_int Sample.env v = Raise AttributeError) \/
   (exists loc, py_get (JList []) "location" JNull = Ok loc /\
                geocode Sample.env loc = Raise AttributeError)).
Proof.
  apply (lookup_exception_causes Sample.env (JList []) Sample.empty_world
           AttributeError Sample.empty_world).
  reflexivity.
Defined.

(** A lookup appends a row exactly when it answers 200: in every other
    outcome (400, 404, 500, an escaping exception) the table is left as it
    was, and a 200 answer always comes with exactly one new row. *)
Theorem lookup_stores_iff_200 :
  forall env data w,
    (exists resp r,
        fst (get_weather env data w) = Ok resp /\ status resp = 200 /\
        store (snd (get_weather env data w)) = store w ++ [r]) \/
    ((forall resp, fst (get_weather env data w) = Ok resp -> status resp <> 200) /\
     store (snd (get_weather env data w)) = store w).
Proof.
  intros env data w.
  destruct (get_weather_cases env data w)
    as [(e0 & E & Hc) | [(E & _) | [(E & _) | [(e0 & w0 & E & Hs)
       | (cw & fc & pl & r & w0 & E & Hs & _)]]]]; rewrite E; cbn [fst snd].
  - right. split; [intros resp H; discriminate H | reflexivity].
  - right. split; [intros resp H; inversion H; subst; cbn; lia | reflexivity].
  - right. split; [intros resp H; inversion H; subst; cbn; lia | reflexivity].
  - right. split; [intros resp H; inversion H; subst; cbn; lia | exact Hs].
  - left. eexists. exists r. split; [reflexivity|]. split; [reflexivity|exact Hs].
Qed.

(** A lookup answered 400 or 404 leaves the world as it was: nothing was
    requested from the weather or the mapping provider, the clock was not
    read and the table is unchanged. (For a 404 the geocoder has been
    asked; it is not part of the world.) *)
Theorem rejected_lookup_leaves_world :
  forall env data w resp w',
    get_weather env data w = (Ok resp, w') ->
    status resp = 400 \/ status resp = 404 ->
    w' = w.
Proof.
  intros env data w resp w' H Hst.
  destruct (get_weather_cases env data w)
    as [(e0 & E & Hc) | [(E & _) | [(E & _) | [(e0 & w0 & E & Hs)
       | (cw & fc & pl & r & w0 & E & Hs & _)]]]];
    rewrite E in H; inversion H; subst; try reflexivity;
    cbn in Hst; lia.
Qed.

Lemma rejected_lookup_leaves_world_empty_location :
  snd (get_weather Sample.env (JDict [("location", JStr "")])
         Sample.one_row_world) = Sample.one_row_world.
Proof.
  apply (rejected_lookup_leaves_world Sample.env
           (JDict [("location", JStr "")]) Sample.one_row_world
           (jsonify 400 (JDict [("error", JStr "Location is required")]))).
  - reflexivity.
  - left; reflexivity.
Defined.

(** The day count is converted before the location is looked at: a
    [forecastDays] that [int] refuses makes the lookup raise, with no JSON
    answer, even when the location is missing. *)
Theorem unconvertible_days_raise_before_validation :
  forall env kvs w v e,
    py_get (JDict kvs) "forecastDays" (JInt 5) = Ok v ->
    py_int env v = Raise e ->
    get_weather env (JDict kvs) w = (Raise e, w).
Proof.
  intros env kvs w v e Hv He.
  unfold get_weather, bind, lift.
  destruct (py_get (JDict kvs) "location" JNull) as [loc|e0] eqn:El.
  - rewrite Hv, He. reflexivity.
  - simpl in El. destruct (dict_lookup "location" kvs); discriminate.
Qed.

Lemma unconvertible_days_raise_without_location :
  get_weather Sample.env (JDict [("forecastDays", JNull)]) Sample.empty_world =
    (Raise TypeError, Sample.empty_world).
Proof.
  apply (unconvertible_days_raise_before_validation Sample.env
           [("forecastDays", JNull)] Sample.empty_world JNull TypeError);
    reflexivity.
Defined.

(** A missing or falsy location (absent, null, "", 0, false, [], {}) with
    convertible counts is answered 400 "Location is required", and nothing
    else happens. *)
Theorem missing_location_is_400 :
  forall env data w loc fd pc forecast_days places_count,
    py_get data "location" JNull = Ok loc ->
    truthy loc = false ->
    py_get data "forecastDays" (JInt 5) = Ok fd ->
    py_int env fd = Ok forecast_days ->
    py_get data "placesCount" (JInt 5) = Ok pc ->
    py_int env pc = Ok places_count ->
    get_weather env data w =
      (Ok (jsonify 400 (JDict [("error", JStr "Location is required")])), w).
Proof.
  intros env data w loc fd pc forecast_days places_count
         Hloc Ht Hfd Hfdi Hpc Hpci.
  unfold get_weather, bind, lift.
  rewrite Hloc, Hfd, Hfdi, Hpc, Hpci, Ht. reflexivity.
Qed.

Lemma missing_location_is_400_empty_body :
  get_weather Sample.env (JDict []) Sample.one_row_world =
    (Ok (jsonify 400 (JDict [("error", JStr "Location is required")])),
     Sample.one_row_world).
Proof.
  apply (missing_location_is_400 Sample.env (JDict []) Sample.one_row_world
           JNull (JInt 5) (JInt 5) 5 5); reflexivity.
Defined.

(** The geocoder is called outside the [try]: when it raises, the
    exception escapes the view (Flask answers 500 without the JSON error
    body) and the world is left as it was. *)
Theorem geocoder_failure_escapes :
  forall env data w loc fd pc forecast_days places_count e,
    py_get data "location" JNull = Ok loc ->
    truthy loc = true ->
    py_get data "forecastDays" (JInt 5) = Ok fd ->
    py_int env fd = Ok forecast_days ->
    py_get data "placesCount" (JInt 5) = Ok pc ->
    py_int env pc = Ok places_count ->
    geocode env loc = Raise e ->
    get_weather env data w = (Raise e, w).
Proof.
  intros env data w loc fd pc forecast_days places_count e
         Hloc Ht Hfd Hfdi Hpc Hpci Hgeo.
  unfold get_weather, bind, lift.
  rewrite Hloc, Hfd, Hfdi, Hpc, Hpci, Ht. cbn [negb].
  unfold get_coordinates, bind, lift. rewrite Hgeo. reflexivity.
Qed.

Lemma geocoder_failure_escapes_offline :
  get_weather SampleMaps.env (JDict [("location", JStr "Offline")])
    Sample.empty_world =
    (Raise (RequestException "timed out"), Sample.empty_world).
Proof.
  apply (geocoder_failure_escapes SampleMaps.env
           (JDict [("location", JStr "Offline")]) Sample.empty_world
           (JStr "Offline") (JInt 5) (JInt 5) 5 5
           (RequestException "timed out")); reflexivity.
Defined.

(** When validation passes and the geocoder answers (without raising), the
    lookup is answered 404 exactly when the geocoder has no match or one of
    the coordinates it gives is a zero. *)
Theorem not_found_exactly_when :
  forall env data w loc fd pc forecast_days places_count g,
    py_get data "location" JNull = Ok loc ->
    truthy loc = true ->
    py_get data "forecastDays" (JInt 5) = Ok fd ->
    py_int env fd = Ok forecast_days ->
    py_get data "placesCount" (JInt 5) = Ok pc ->
    py_int env pc = Ok places_count ->
    geocode env loc = Ok g ->
    (fst (get_weather env data w) =
       Ok (jsonify 404 (JDict [("error", JStr "Could not find location")])) <->
     (g = None \/
      exists lat lon,
        g = Some (lat, lon) /\
        (float_truthy lat = false \/ float_truthy lon = false))).
Proof.
  intros env data w loc fd pc forecast_days places_count g
         Hloc Ht Hfd Hfdi Hpc Hpci Hgeo.
  split.
  - intros H.
    destruct (get_weather_cases env data w)
      as [(e0 & E & Hc) | [(E & _) | [(E & Hc) | [(e0 & w0 & E & Hs)
         | (cw & fc & pl & r & w0 & E & Hs & _)]]]];
      rewrite E in H; cbn [fst] in H; try discriminate H.
    destruct Hc as (loc' & Hloc' & _ & Hc).
    rewrite Hloc in Hloc'. inversion Hloc'; subst loc'.
    rewrite Hgeo in Hc.
    destruct Hc as [Hc | (lat & lon & Hc & Hz)]; inversion Hc; subst.
    + left; reflexivity.
    + right. exists lat, lon. split; [reflexivity | exact Hz].
  - intros Hg.
    unfold get_weather, bind, lift.
    rewrite Hloc, Hfd, Hfdi, Hpc, Hpci, Ht. cbn [negb].
    unfold get_coordinates, bind, lift, ret. rewrite Hgeo.
    destruct Hg as [-> | (lat & lon & -> & Hz)]; [reflexivity|].
    cbn [fst snd opt_float_truthy].
    destruct Hz as [-> | ->]; cbn [negb orb];
      [|rewrite Bool.orb_true_r]; reflexivity.
Qed.

Lemma not_found_exactly_when_paris :
  fst (get_weather Sample.env Sample.paris_request Sample.empty_world) =
    Ok (jsonify 404 (JDict [("error", JStr "Could not find location")])) <->
  (Some (Sample.lat_paris, Sample.lon_paris) = None \/
   exists lat lon,
     Some (Sample.lat_paris, Sample.lon_paris) = Some (lat, lon) /\
     (float_truthy lat = false \/ float_truthy lon = false)).
Proof.
  apply (not_found_exactly_when Sample.env Sample.paris_request
           Sample.empty_world (JStr "Paris") (JInt 3) (JInt 2) 3 2);
    reflexivity.
Defined.

(** Once validation has passed and the geocoder has given two non-zero
    coordinates, nothing escapes the view: the lookup answers 200 with one
    new row, or 500 with [{"error": str(e)}] for the exception [e] that was
    caught and with the table unchanged. *)
Theorem geocoded_lookup_answers_200_or_500 :
  forall env data w loc fd pc forecast_days places_count lat lon,
    py_get data "location" JNull = Ok loc ->
    truthy loc = true ->
    py_get data "forecastDays" (JInt 5) = Ok fd ->
    py_int env fd = Ok forecast_days ->
    py_get data "placesCount" (JInt 5) = Ok pc ->
    py_int env pc = Ok places_count ->
    geocode env loc = Ok (Some (lat, lon)) ->
    float_truthy lat = true ->
    float_truthy lon = true ->
    exists resp w',
      get_weather env data w = (Ok resp, w') /\
      ((status resp = 200 /\ exists r, store w' = store w ++ [r]) \/
       (exists e,
           resp = jsonify 500 (JDict [("error", JStr (str_exn env e))]) /\
           store w' = store w)).
Proof.
  intros env data w loc fd pc forecast_days places_count lat lon
         Hloc Ht Hfd Hfdi Hpc Hpci Hgeo Hlat Hlon.
  destruct (get_weather_cases env data w)
    as [(e0 & E & Hc) | [(E & Hc) | [(E & Hc) | [(e0 & w0 & E & Hs)
       | (cw & fc & pl & r & w0 & E & Hs & _)]]]].
  - exfalso.
    destruct Hc as [Hc | [(v & Hv & Hc) | [(v & Hv & Hc) | (l & Hl & Hc)]]];
      congruence.
  - exfalso. destruct Hc as (l & Hl & Hc). congruence.
  - exfalso. destruct Hc as (l & Hl & _ & Hc).
    assert (l = loc) by congruence. subst l.
    destruct Hc as [Hc | (la & lo & Hc & Hz)]; [congruence|].
    assert (la = lat /\ lo = lon) as [-> ->] by (split; congruence).
    destruct Hz; congruence.
  - eexists. exists w0. split; [exact E|]. right. exists e0. split; [reflexivity|exact Hs].
  - eexists. exists w0. split; [exact E|]. left. split; [reflexivity|].
    exists r. exact Hs.
Qed.

Lemma geocoded_lookup_answers_200_or_500_paris :
  exists resp w',
    get_weather SampleMaps.env Sample.paris_request Sample.empty_world =
      (Ok resp, w') /\
    ((status resp = 200 /\ exists r, store w' = store Sample.empty_world ++ [r]) \/
     (exists e,
         resp = jsonify 500
                  (JDict [("error", JStr (str_exn SampleMaps.env e))]) /\
         store w' = store Sample.empty_world)).
Proof.
  apply (geocoded_lookup_answers_200_or_500 SampleMaps.env Sample.paris_request
           Sample.empty_world (JStr "Paris") (JInt 3) (JInt 2) 3 2
           Sample.lat_paris Sample.lon_paris); reflexivity.
Defined.

(** A current-weather payload without the key the view reads first (what
    the provider sends for a refused API key, for instance) is answered 500
    with the text of the [KeyError]; by then the forecast and the places
    have been requested as well, the clock has been read once, and no row
    is stored. *)
Theorem payload_without_main_is_500 :
  forall env data w w1 w2 w3 s fd pc forecast_days places_count lat lon
         current_weather forecast places e,
    py_get data "location" JNull = Ok (JStr s) ->
    s <> "" ->
    py_get data "forecastDays" (JInt 5) = Ok fd ->
    py_int env fd = Ok forecast_days ->
    py_get data "placesCount" (JInt 5) = Ok pc ->
    py_int env pc = Ok places_count ->
    geocode env (JStr s) = Ok (Some (lat, lon)) ->
    float_truthy lat = true ->
    float_truthy lon = true ->
    get_weather_data env (Some lat) (Some lon) w = (Ok current_weather, w1) ->
    get_forecast_data env (Some lat) (Some lon) forecast_days w1 =
      (Ok forecast, w2) ->
    get_google_maps_data env (Some lat) (Some lon) places_count w2 =
      (Ok places, w3) ->
    py_getitem current_weather "main" = Raise e ->
    get_weather env data w =
      (Ok (jsonify 500 (JDict [("error", JStr (str_exn env e))])),
       {| store := store w; sent := sent w3; clock := S (clock w) |}).
Proof.
  intros env data w w1 w2 w3 s fd pc forecast_days places_count lat lon
         current_weather forecast places e
         Hloc Hs Hfd Hfdi Hpc Hpci Hgeo Hlat Hlon Hcw Hfc Hpl Hmain.
  destruct (lookup_world_frame env forecast_days places_count lat lon
              w w1 w2 w3 current_weather forecast places Hcw Hfc Hpl)
    as [Hst Hck].
  unfold get_weather, bind, lift.
  rewrite Hloc, Hfd, Hfdi, Hpc, Hpci.
  assert (Ht : truthy (JStr s) = true).
  { simpl. apply String.eqb_neq in Hs. rewrite Hs. reflexivity. }
  rewrite Ht. cbn [negb].
  unfold get_coordinates, bind, lift, ret. rewrite Hgeo.
  cbn [fst snd opt_float_truthy]. rewrite Hlat, Hlon. cbn [negb orb].
  unfold try_except, bind, lift, ret.
  rewrite Hcw, Hfc, Hpl.
  unfold datetime_utcnow at 1. rewrite Hmain.
  rewrite Hst, Hck. reflexivity.
Qed.

Lemma payload_without_main_is_500_refused_key :
  get_weather SampleMaps.env Sample.paris_request Sample.one_row_world =
    (Ok (jsonify 500
           (JDict [("error",
                    JStr (str_exn SampleMaps.env (KeyError (JStr "main"))))])),
     {| store := store Sample.one_row_world;
        sent := sent SampleMaps.after_places;
        clock := S (clock Sample.one_row_world) |}).
Proof.
  refine (payload_without_main_is_500 SampleMaps.env Sample.paris_request
            Sample.one_row_world SampleMaps.after_current
            SampleMaps.after_forecast SampleMaps.after_places
            "Paris" (JInt 3) (JInt 2) 3 2
            Sample.lat_paris Sample.lon_paris _ _ _ (KeyError (JStr "main"))
            _ _ _ _ _ _ _ _ _ _ _ _ _);
    try reflexivity; try discriminate.
  vm_compute. reflexivity.
Defined.

(** ** Invariants of the table *)

Lemma next_id_fresh :
  forall rows r, In r rows -> id r < next_id rows.
Proof.
  intros rows r H. unfold next_id.
  induction rows as [|x t IH]; [contradiction|].
  simpl. destruct H as [<- | H]; [lia|].
  specialize (IH H). lia.
Qed.

Lemma map_id_update_row :
  forall r' rows, map id (update_row r' rows) = map id rows.
Proof.
  intros r' rows. unfold update_row. rewrite map_map.
  apply map_ext_in. intros x _.
  destruct (id x =? id r') eqn:E; [|reflexivity].
  apply Z.eqb_eq in E. symmetry. exact E.
Qed.

Lemma unique_ids_delete_row :
  forall i rows, unique_ids rows -> unique_ids (delete_row i rows).
Proof.
  intros i rows. unfold unique_ids, delete_row.
  induction rows as [|x t IH]; intros H; [constructor|].
  simpl in *. inversion H as [|? ? Hnot Hrest]; subst.
  destruct (negb (id x =? i)); [|apply IH; exact Hrest].
  simpl. constructor; [|apply IH; exact Hrest].
  intros Hin. apply Hnot. apply in_map_iff in Hin.
  destruct Hin as (y & Hy & Hin). apply filter_In in Hin.
  apply in_map_iff. exists y. tauto.
Qed.

Lemma unique_ids_append_fresh :
  forall rows r,
    unique_ids rows -> id r = next_id rows -> unique_ids (rows ++ [r]).
Proof.
  intros rows r H Hid. unfold unique_ids in *. rewrite map_app. simpl.
  apply NoDup_app.
  - exact H.
  - constructor; [intros []|constructor].
  - intros z Hz [<- | []]. apply in_map_iff in Hz.
    destruct Hz as (y & Hy & Hin). apply next_id_fresh in Hin. lia.
Qed.

Lemma update_record_missing :
  forall env i data w,
    query_get i (store w) = None ->
    exists e, update_record env i data w = (Raise e, w).
Proof.
  intros env i data w H. unfold update_record, bind, get_or_404.
  rewrite H. destruct (fits_int64 i); eexists; reflexivity.
Qed.

Lemma delete_record_store :
  forall i w,
    store (snd (delete_record i w)) = store w \/
    store (snd (delete_record i w)) = delete_row i (store w).
Proof.
  intros i w. unfold delete_record, bind, get_or_404.
  destruct (query_get i (store w)) as [r|] eqn:H;
    [|left; destruct (fits_int64 i); reflexivity].
  right. cbn. rewrite (query_get_id _ _ _ H). reflexivity.
Qed.

(** The primary key is kept: if no two rows share an id, no route makes
    two rows share one. A lookup gives its new row an id above all the ids in
    use; an update never writes the id; a delete only removes rows. *)
Theorem routes_keep_ids_unique :
  forall env w,
    unique_ids (store w) ->
    (forall data, unique_ids (store (snd (get_weather env data w)))) /\
    (forall i data, unique_ids (store (snd (update_record env i data w)))) /\
    (forall i, unique_ids (store (snd (delete_record i w)))).
Proof.
  intros env w H. split; [|split].
  - intros data.
    destruct (get_weather_cases env data w)
      as [(e0 & E & _) | [(E & _) | [(E & _) | [(e0 & w0 & E & Hs)
         | (cw & fc & pl & r & w0 & E & Hs & Hid & _)]]]];
      rewrite E; cbn [snd]; try exact H.
    + rewrite Hs. exact H.
    + rewrite Hs. apply unique_ids_append_fresh; assumption.
  - intros i data.
    destruct (query_get i (store w)) as [r|] eqn:Hq.
    + destruct (update_record_cases env i data w r Hq)
        as [(e & E) | (r' & al & at_ & ad & E & _)]; rewrite E;
        cbn [snd store]; [exact H|].
      unfold unique_ids. rewrite map_id_update_row. exact H.
    + destruct (update_record_missing env i data w Hq) as [e ->]. exact H.
  - intros i. destruct (delete_record_store i w) as [-> | ->];
      [exact H | apply unique_ids_delete_row; exact H].
Qed.

Lemma routes_keep_ids_unique_sample :
  unique_ids
    (store (snd (get_weather Sample.env Sample.paris_request
                   Sample.two_row_world))).
Proof.
  assert (H : unique_ids (store Sample.two_row_world)).
  { unfold unique_ids. cbn. repeat constructor; cbn; intuition discriminate. }
  destruct (routes_keep_ids_unique Sample.env Sample.two_row_world H)
    as [Hlookup _].
  apply Hlookup.
Defined.

(** A payload the table cannot take. When the current-weather payload has
    all the keys the view reads but one of the four values is refused by
    its column (a temperature, humidity or wind speed that [float] refuses,
    such as a text that is not a number; a description that is a list or
    an object), the INSERT fails: the lookup is answered 500 with the text
    of the database error, after all three requests, and stores nothing. *)
Theorem unstorable_payload_is_500 :
  forall env data w w1 w2 w3 s fd pc forecast_days places_count lat lon
         current_weather forecast places temp descr hum speed,
    py_get data "location" JNull = Ok (JStr s) ->
    s <> "" ->
    py_get data "forecastDays" (JInt 5) = Ok fd ->
    py_int env fd = Ok forecast_days ->
    py_get data "placesCount" (JInt 5) = Ok pc ->
    py_int env pc = Ok places_count ->
    geocode env (JStr s) = Ok (Some (lat, lon)) ->
    float_truthy lat = true ->
    float_truthy lon = true ->
    get_weather_data env (Some lat) (Some lon) w = (Ok current_weather, w1) ->
    get_forecast_data env (Some lat) (Some lon) forecast_days w1 =
      (Ok forecast, w2) ->
    get_google_maps_data env (Some lat) (Some lon) places_count w2 =
      (Ok places, w3) ->
    current_fields current_weather temp descr hum speed ->
    (exists e, bind_float env temp = Raise e) \/
    (exists e, bind_string env descr = Raise e) \/
    (exists e, bind_float env hum = Raise e) \/
    (exists e, bind_float env speed = Raise e) ->
    fst (get_weather env data w) =
      Ok (jsonify 500 (JDict [("error", JStr (str_exn env DatabaseError))])) /\
    store (snd (get_weather env data w)) = store w /\
    sent (snd (get_weather env data w)) = sent w3.
Proof.
  intros env data w w1 w2 w3 s fd pc forecast_days places_count lat lon
         current_weather forecast places temp descr hum speed
         Hloc Hs Hfd Hfdi Hpc Hpci Hgeo Hlat Hlon Hcw Hfc Hpl Hfields Hbad.
  rewrite (get_weather_reaches_commit env data s fd pc forecast_days
             places_count lat lon w w1 w2 w3 current_weather forecast places
             temp descr hum speed); try assumption.
  unfold insert_row.
  cbn [new_location new_temperature new_description new_humidity
       new_wind_speed bind_string].
  destruct Hbad as [(e & E) | [(e & E) | [(e & E) | (e & E)]]].
  - rewrite E. repeat split; reflexivity.
  - rewrite E. destruct (bind_float env temp); repeat split; reflexivity.
  - rewrite E. destruct (bind_float env temp); [|repeat split; reflexivity].
    destruct (bind_string env descr); repeat split; reflexivity.
  - rewrite E. destruct (bind_float env temp); [|repeat split; reflexivity].
    destruct (bind_string env descr); [|repeat split; reflexivity].
    destruct (bind_float env hum); repeat split; reflexivity.
Qed.

Lemma unstorable_payload_is_500_text_temperature :
  fst (get_weather SampleDenied.env Sample.paris_request Sample.one_row_world) =
    Ok (jsonify 500
          (JDict [("error", JStr (str_exn SampleDenied.env DatabaseError))])) /\
  store (snd (get_weather SampleDenied.env Sample.paris_request
                Sample.one_row_world)) = store Sample.one_row_world /\
  sent (snd (get_weather SampleDenied.env Sample.paris_request
               Sample.one_row_world)) = sent SampleDenied.after_places.
Proof.
  refine (unstorable_payload_is_500 SampleDenied.env Sample.paris_request
            Sample.one_row_world SampleDenied.after_current
            SampleDenied.after_forecast SampleDenied.after_places
            "Paris" (JInt 3) (JInt 2) 3 2
            Sample.lat_paris Sample.lon_paris
            SampleDenied.current_text Sample.forecast_paris JNull
            (JStr "n/a") (JStr "clear sky") (JInt 60)
            (JFloat Sample.wind_paris)
            _ _ _ _ _ _ _ _ _ _ _ _ _ _);
    try reflexivity; try discriminate.
  - unfold current_fields.
    exists (JDict [("temp", JStr "n/a"); ("humidity", JInt 60)]),
      (JList [JDict [("description", JStr "clear sky")]]),
      (JDict [("description", JStr "clear sky")]),
      (JDict [("speed", JFloat Sample.wind_paris)]).
    repeat split; reflexivity.
  - left. exists ValueError. reflexivity.
Defined.

Lemma query_get_app_fresh :
  forall rows r,
    id r = next_id rows -> query_get (id r) (rows ++ [r]) = Some r.
Proof.
  intros rows r Hid.
  assert (Hfresh : forall x, In x rows -> id x <> id r).
  { intros x Hx E. apply next_id_fresh in Hx. lia. }
  clear Hid. induction rows as [|x t IH]; simpl.
  - rewrite Z.eqb_refl. reflexivity.
  - destruct (id x =? id r) eqn:E.
    + apply Z.eqb_eq in E. exfalso. apply (Hfresh x); [left; reflexivity|exact E].
    + apply IH. intros y Hy. apply Hfresh. right. exact Hy.
Qed.

Lemma listed_objects_eq :
  forall w,
    listed_objects w = map record_json (order_by_created_at_desc (store w)).
Proof. intros w. reflexivity. Qed.

(** Insert, then look up: after a lookup answered 200 the new row is the
    row its id retrieves (so an update or a delete of that id does not
    answer 404); its location is what the [String] column stores for the
    request's location, the very string when the request gave a string; and
    the list holds an object that gives this row's id, location and other
    values under their keys. *)
Theorem stored_row_is_retrievable :
  forall env data w resp w',
    get_weather env data w = (Ok resp, w') ->
    status resp = 200 ->
    exists r loc o,
      store w' = store w ++ [r] /\
      query_get (id r) (store w') = Some r /\
      py_get data "location" JNull = Ok loc /\
      bind_string env loc = Ok (Some (location r)) /\
      (forall s, loc = JStr s -> location r = s) /\
      In o (listed_objects w') /\
      shows_row o r.
Proof.
  intros env data w resp w' H Hst.
  destruct (get_weather_cases env data w)
    as [(e0 & E & _) | [(E & _) | [(E & _) | [(e0 & w0 & E & Hs)
       | (cw & fc & pl & r & w0 & E & Hs & Hid & (loc & Hloc & Hb) & _)]]]];
    rewrite E in H; inversion H; subst; cbn in Hst; try lia.
  exists r, loc, (record_json r).
  split; [exact Hs|]. split; [rewrite Hs; apply query_get_app_fresh; exact Hid|].
  split; [exact Hloc|]. split; [exact Hb|].
  split; [intros s ->; cbn in Hb; congruence|].
  split.
  - rewrite listed_objects_eq. apply in_map.
    apply (Permutation_in _ (Permutation_sym (order_by_perm _))).
    rewrite Hs. apply in_or_app. right. left. reflexivity.
  - unfold shows_row. repeat split; reflexivity.
Qed.

Lemma stored_row_is_retrievable_paris :
  exists r loc o,
    store Sample.two_row_world = store Sample.one_row_world ++ [r] /\
    query_get (id r) (store Sample.two_row_world) = Some r /\
    py_get Sample.paris_request "location" JNull = Ok loc /\
    bind_string Sample.env loc = Ok (Some (location r)) /\
    (forall s, loc = JStr s -> location r = s) /\
    In o (listed_objects Sample.two_row_world) /\
    shows_row o r.
Proof.
  apply (stored_row_is_retrievable Sample.env Sample.paris_request
           Sample.one_row_world
           (jsonify 200
              (JDict [("current", Sample.current_paris);
                      ("forecast", Sample.forecast_paris);
                      ("places", JNull)]))); reflexivity.
Defined.

(** ** Updates *)

Lemma query_get_update_result :
  forall i w r r',
    query_get i (store w) = Some r -> id r' = id r ->
    query_get i (update_row r' (store w)) = Some r'.
Proof.
  intros i w r r' H Hid.
  apply (query_get_update_row_same i _ r); [exact H|].
  rewrite Hid. apply (query_get_id _ _ _ H).
Qed.

Lemma supplied_dict :
  forall key kvs a v,
    supplied key (JDict kvs) a -> dict_lookup key kvs = Some v -> a = Some v.
Proof.
  intros key kvs a v [[Hc _] | (v' & _ & Hg & ->)] Hv;
    cbn in *; rewrite Hv in *; congruence.
Qed.

(** An update answered 200 has written what the request supplied. For
    each of location, temperature and description that the JSON object
    holds, the column ends with what it makes of the supplied value: the
    value it had when Python finds the two equal, the column's conversion
    of the supplied value otherwise. So a supplied string is what location
    or description then holds, and a supplied number that a float holds
    exactly leaves a temperature equal to it. *)
Theorem update_stores_supplied_values :
  forall env i kvs w r resp w',
    query_get i (store w) = Some r ->
    update_record env i (JDict kvs) w = (Ok resp, w') ->
    exists r',
      query_get i (store w') = Some r' /\
      (forall v, dict_lookup "location" kvs = Some v ->
         update_string env (Some (location r)) (Some v) =
           Ok (Some (location r')) /\
         (forall s, v = JStr s -> location r' = s)) /\
      (forall v, dict_lookup "temperature" kvs = Some v ->
         update_float env (temperature r) (Some v) = Ok (temperature r') /\
         (exact_number v = true -> same_float (temperature r') v = true)) /\
      (forall v, dict_lookup "description" kvs = Some v ->
         update_string env (description r) (Some v) = Ok (description r') /\
         (forall s, v = JStr s -> description r' = Some s)).
Proof.
  intros env i kvs w r resp w' Hq H.
  destruct (update_record_cases env i (JDict kvs) w r Hq)
    as [(e & E) | (r' & al & at_ & ad & E & Hfix & S1 & S2 & S3 & U1 & U2 & U3)];
    rewrite E in H; inversion H; subst.
  exists r'. cbn [store].
  split; [apply (query_get_update_result i w r); [exact Hq | apply Hfix]|].
  split; [|split]; intros v Hv.
  - rewrite (supplied_dict _ _ _ _ S1 Hv) in U1. split; [exact U1|].
    intros s ->. apply update_string_str in U1. congruence.
  - rewrite (supplied_dict _ _ _ _ S2 Hv) in U2. split; [exact U2|].
    intros He. apply (update_float_exact env (temperature r)); assumption.
  - rewrite (supplied_dict _ _ _ _ S3 Hv) in U3. split; [exact U3|].
    intros s ->. apply update_string_str in U3. exact U3.
Qed.

Lemma update_stores_supplied_values_paris :
  exists r',
    query_get 1
      (store (snd (update_record Sample.env 1
                     (JDict [("location", JStr "Lyon"); ("temperature", JInt 21)])
                     Sample.one_row_world))) = Some r' /\
    location r' = "Lyon" /\
    same_float (temperature r') (JInt 21) = true.
Proof.
  destruct (update_stores_supplied_values Sample.env 1
              [("location", JStr "Lyon"); ("temperature", JInt 21)]
              Sample.one_row_world paris_row
              (jsonify 200
                 (JDict [("message", JStr "Record updated successfully")]))
              (snd (update_record Sample.env 1
                      (JDict [("location", JStr "Lyon");
                              ("temperature", JInt 21)])
                      Sample.one_row_world))
              eq_refl eq_refl)
    as (r' & Hq & Hl & Ht & _).
  exists r'. split; [exact Hq|].
  split.
  - apply (proj2 (Hl (JStr "Lyon") eq_refl) "Lyon" eq_refl).
  - apply (proj2 (Ht (JInt 21) eq_refl) eq_refl).
Defined.

(** The location column is declared [nullable=False]: an update whose
    object holds ["location": null] fails at its commit, the exception
    escapes the view and the table is left as it was. *)
Theorem update_refuses_null_location :
  forall env i kvs w r,
    query_get i (store w) = Some r ->
    dict_lookup "location" kvs = Some JNull ->
    update_record env i (JDict kvs) w = (Raise DatabaseError, w).
Proof.
  intros env i kvs w r Hq Hloc.
  unfold update_record, bind, get_or_404. rewrite Hq.
  unfold assign_if_present, bind, lift, ret.
  cbn [py_contains py_getitem]. rewrite Hloc.
  destruct (dict_lookup "temperature" kvs);
    destruct (dict_lookup "description" kvs);
    unfold session_commit_update, flush_update; cbn; reflexivity.
Qed.

Lemma update_refuses_null_location_paris :
  update_record Sample.env 1 (JDict [("location", JNull)]) Sample.one_row_world =
    (Raise DatabaseError, Sample.one_row_world).
Proof.
  apply (update_refuses_null_location Sample.env 1 [("location", JNull)]
           Sample.one_row_world paris_row); reflexivity.
Defined.

Lemma unique_ids_same_row :
  forall rows x y,
    unique_ids rows -> In x rows -> In y rows -> id x = id y -> x = y.
Proof.
  unfold unique_ids. induction rows as [|z t IH]; intros x y H Hx Hy E;
    [contradiction|].
  simpl in H. inversion H as [|? ? Hnot Hrest]; subst.
  destruct Hx as [<- | Hx]; destruct Hy as [<- | Hy].
  - reflexivity.
  - exfalso. apply Hnot. rewrite E. apply in_map. exact Hy.
  - exfalso. apply Hnot. rewrite <- E. apply in_map. exact Hx.
  - apply IH; assumption.
Qed.

Lemma update_row_same :
  forall rows r, unique_ids rows -> In r rows -> update_row r rows = rows.
Proof.
  intros rows r H Hr. unfold update_row.
  rewrite <- (map_id rows) at 2. apply map_ext_in.
  intros x Hx. destruct (id x =? id r) eqn:E; [|reflexivity].
  apply Z.eqb_eq in E. symmetry. apply (unique_ids_same_row rows); assumption.
Qed.

Lemma flush_update_loaded :
  forall env r, flush_update env (loaded r) = Ok r.
Proof. intros env r. destruct r; reflexivity. Qed.

(** A request that supplies none of the three keys (the empty object, or
    any body in which none of them is found) is answered 200 and changes
    nothing. *)
Theorem empty_patch_changes_nothing :
  forall env i data w r,
    query_get i (store w) = Some r ->
    unique_ids (store w) ->
    py_contains "location" data = Ok false ->
    py_contains "temperature" data = Ok false ->
    py_contains "description" data = Ok false ->
    update_record env i data w =
      (Ok (jsonify 200
             (JDict [("message", JStr "Record updated successfully")])), w).
Proof.
  intros env i data w r Hq Hu Hl Ht Hd.
  unfold update_record, bind, get_or_404. rewrite Hq.
  unfold assign_if_present, bind, lift, ret. rewrite Hl, Ht, Hd.
  unfold session_commit_update. rewrite flush_update_loaded.
  rewrite (update_row_same _ _ Hu (query_get_In _ _ _ Hq)).
  destruct w; reflexivity.
Qed.

Lemma empty_patch_changes_nothing_array_body :
  update_record Sample.env 1 (JList [JStr "other"]) Sample.one_row_world =
    (Ok (jsonify 200
           (JDict [("message", JStr "Record updated successfully")])),
     Sample.one_row_world).
Proof.
  apply (empty_patch_changes_nothing Sample.env 1 (JList [JStr "other"])
           Sample.one_row_world paris_row); try reflexivity.
  unfold unique_ids. cbn. repeat constructor. intros [].
Defined.

(** ** Deleting and the order of the list *)

Lemma query_get_delete_row_other :
  forall i j rows,
    j <> i -> query_get j (delete_row i rows) = query_get j rows.
Proof.
  intros i j rows Hne. induction rows as [|x t IH]; [reflexivity|].
  simpl. destruct (id x =? i) eqn:Ei; simpl.
  - apply Z.eqb_eq in Ei.
    assert (Ej : (id x =? j) = false) by (apply Z.eqb_neq; lia).
    rewrite Ej. exact IH.
  - destruct (id x =? j); [reflexivity | exact IH].
Qed.

Lemma insert_desc_head :
  forall r l,
    Forall (fun y => dt_leb (created_at y) (created_at r) = true) l ->
    insert_desc r l = r :: l.
Proof.
  intros r l H. destruct l as [|x t]; [reflexivity|].
  simpl. inversion H as [|? ? Hx _]; subst. rewrite Hx. reflexivity.
Qed.

Lemma filter_insert_desc :
  forall (p : WeatherRecord -> bool) r l,
    StronglySorted newer_or_equal l ->
    filter p (insert_desc r l) =
      if p r then insert_desc r (filter p l) else filter p l.
Proof.
  intros p r l Hs. induction Hs as [|x t Hs IH Hall]; simpl.
  - destruct (p r); reflexivity.
  - destruct (dt_leb (created_at x) (created_at r)) eqn:E.
    + simpl. destruct (p r) eqn:Epr; [|reflexivity].
      destruct (p x) eqn:Epx.
      * simpl. rewrite E. reflexivity.
      * symmetry. apply insert_desc_head.
        apply Forall_forall. intros y Hy. apply filter_In in Hy.
        destruct Hy as [Hy _].
        rewrite Forall_forall in Hall. specialize (Hall y Hy).
        unfold newer_or_equal, dt_leb in *.
        eapply lex_leb_trans; eassumption.
    + simpl. rewrite IH. destruct (p x) eqn:Epx; destruct (p r) eqn:Epr;
        simpl; try rewrite E; reflexivity.
Qed.

Lemma order_by_filter :
  forall (p : WeatherRecord -> bool) rows,
    order_by_created_at_desc (filter p rows) =
    filter p (order_by_created_at_desc rows).
Proof.
  intros p rows. induction rows as [|r t IH]; [reflexivity|].
  simpl. rewrite (filter_insert_desc p r _ (order_by_sorted t)).
  destruct (p r); simpl; rewrite IH; reflexivity.
Qed.

Lemma delete_row_length :
  forall i rows r,
    unique_ids rows -> query_get i rows = Some r ->
    List.length rows = S (List.length (delete_row i rows)).
Proof.
  intros i rows r. unfold unique_ids.
  induction rows as [|x t IH]; intros Hu Hq; [discriminate|].
  simpl in *. inversion Hu as [|? ? Hnot Hrest]; subst.
  destruct (id x =? i) eqn:E; simpl.
  - apply Z.eqb_eq in E. f_equal.
    assert (Hsame : delete_row i t = t).
    { unfold delete_row. apply forallb_filter_id. apply forallb_forall.
      intros y Hy. apply Bool.negb_true_iff. apply Z.eqb_neq. intros Ey.
      apply Hnot. rewrite E, <- Ey. apply in_map. exact Hy. }
    fold (delete_row i t). rewrite Hsame. reflexivity.
  - f_equal. apply IH; assumption.
Qed.

(** Deleting takes one row out and disturbs nothing else: every other id
    still retrieves the row it did, the list after the delete is the list
    before it without the deleted id, in the same order, and (ids being
    unique) the table is one row shorter. *)
Theorem delete_removes_only_that_row :
  forall i w r,
    query_get i (store w) = Some r ->
    let w' := snd (delete_record i w) in
    (forall j, j <> i -> query_get j (store w') = query_get j (store w)) /\
    order_by_created_at_desc (store w') =
      delete_row i (order_by_created_at_desc (store w)) /\
    fst (get_records w') =
      Ok (jsonify 200
            (JList (map record_json
                      (delete_row i (order_by_created_at_desc (store w)))))) /\
    (unique_ids (store w) ->
     List.length (store w) = S (List.length (store w'))).
Proof.
  intros i w r Hq w'.
  assert (Hst : store w' = delete_row i (store w)).
  { subst w'. unfold delete_record, bind, get_or_404. rewrite Hq. cbn.
    rewrite (query_get_id _ _ _ Hq). reflexivity. }
  assert (Hord : order_by_created_at_desc (store w') =
                 delete_row i (order_by_created_at_desc (store w))).
  { rewrite Hst. unfold delete_row. apply order_by_filter. }
  split; [intros j Hj; rewrite Hst; apply query_get_delete_row_other; exact Hj|].
  split; [exact Hord|].
  split; [unfold get_records, bind, query_all_desc, ret; cbn [fst];
          rewrite Hord; reflexivity|].
  intros Hu. rewrite Hst. apply (delete_row_length i _ r); assumption.
Qed.

Lemma delete_removes_only_that_row_sample :
  query_get 2 (store (snd (delete_record 1 Sample.two_row_world))) =
    query_get 2 (store Sample.two_row_world) /\
  order_by_created_at_desc (store (snd (delete_record 1 Sample.two_row_world))) =
    delete_row 1 (order_by_created_at_desc (store Sample.two_row_world)).
Proof.
  destruct (delete_removes_only_that_row 1 Sample.two_row_world paris_row
              eq_refl)
    as (Hother & Horder & _).
  split; [apply Hother; discriminate | exact Horder].
Defined.

Lemma insert_desc_map :
  forall (f : WeatherRecord -> WeatherRecord) r l,
    created_at (f r) = created_at r ->
    (forall x, In x l -> created_at (f x) = created_at x) ->
    insert_desc (f r) (map f l) = map f (insert_desc r l).
Proof.
  intros f r l Hr Hl. induction l as [|x t IH]; [reflexivity|].
  simpl. rewrite Hr, (Hl x (or_introl eq_refl)).
  destruct (dt_leb (created_at x) (created_at r)); [reflexivity|].
  simpl. f_equal. apply IH. intros y Hy. apply Hl. right. exact Hy.
Qed.

Lemma order_by_map :
  forall (f : WeatherRecord -> WeatherRecord) rows,
    (forall x, In x rows -> created_at (f x) = created_at x) ->
    order_by_created_at_desc (map f rows) =
    map f (order_by_created_at_desc rows).
Proof.
  intros f rows H. induction rows as [|r t IH]; [reflexivity|].
  simpl. rewrite IH by (intros y Hy; apply H; right; exact Hy).
  apply insert_desc_map.
  - apply H. left. reflexivity.
  - intros x Hx. apply H. right.
    apply (Permutation_in _ (order_by_perm t)). exact Hx.
Qed.

(** Editing a record never moves it in the list: whatever an update does,
    the list afterwards shows the same ids in the same order (ids being
    unique). *)
Theorem update_keeps_list_order :
  forall env i data w,
    unique_ids (store w) ->
    map id (order_by_created_at_desc
              (store (snd (update_record env i data w)))) =
    map id (order_by_created_at_desc (store w)).
Proof.
  intros env i data w Hu.
  destruct (query_get i (store w)) as [r|] eqn:Hq;
    [|destruct (update_record_missing env i data w Hq) as [e ->];
      reflexivity].
  destruct (update_record_cases env i data w r Hq)
    as [(e & E) | (r' & al & at_ & ad & E & Hfix & _)]; rewrite E;
    cbn [snd store]; [reflexivity|].
  destruct Hfix as (Hid & _ & _ & _ & _ & _ & Hcreated).
  unfold update_row. rewrite order_by_map.
  - fold (update_row r' (order_by_created_at_desc (store w))).
    apply map_id_update_row.
  - intros x Hx. destruct (id x =? id r') eqn:E'; [|reflexivity].
    apply Z.eqb_eq in E'.
    assert (x = r).
    { apply (unique_ids_same_row (store w)); try assumption.
      - apply (query_get_In _ _ _ Hq).
      - congruence. }
    subst x. exact Hcreated.
Qed.

Lemma update_keeps_list_order_sample :
  map id (order_by_created_at_desc
            (store (snd (update_record Sample.env 1
                           (JDict [("temperature", JInt 3)])
                           Sample.two_row_world)))) =
  map id (order_by_created_at_desc (store Sample.two_row_world)).
Proof.
  apply (update_keeps_list_order Sample.env 1 (JDict [("temperature", JInt 3)])
           Sample.two_row_world).
  unfold unique_ids. cbn. repeat constructor; cbn; intuition discriminate.
Defined.

(** ** Export: the three formats *)

Lemma order_by_nonempty :
  forall rows, rows <> [] -> order_by_created_at_desc rows <> [].
Proof.
  intros rows H E. apply H.
  apply Permutation_nil. rewrite <- E. apply order_by_perm.
Qed.

(** The three formats render the same rows. For a table that is not empty
    there is one list of objects, a row each and newest first, such that the
    JSON export is that list, the CSV export is rendered from it, and the
    PDF table is a header row made of the six labels followed by one row of
    the same values per object. *)
Theorem export_formats_agree :
  forall w : World,
    store w <> [] ->
    exists data : list (list (string * json)),
      data = map export_row (order_by_created_at_desc (store w)) /\
      List.length data = List.length (store w) /\
      export_data "json" w = (Ok (jsonify 200 (JList (map JDict data))), w) /\
      export_data "csv" w =
        (Ok {| status := 200; content_type := "text/csv";
               content := Csv data |}, w) /\
      export_data "pdf" w =
        (Ok {| status := 200; content_type := "application/pdf";
               content := Pdf (map JStr export_keys :: map (map snd) data) |},
         w).
Proof.
  intros w Hne.
  exists (map export_row (order_by_created_at_desc (store w))).
  split; [reflexivity|].
  split; [rewrite length_map; apply Permutation_length, order_by_perm|].
  split; [reflexivity|]. split; [reflexivity|].
  unfold export_data, bind, query_all_desc, ret, lift.
  cbn [String.eqb Ascii.eqb Bool.eqb].
  pose proof (order_by_nonempty (store w) Hne) as Hord.
  destruct (order_by_created_at_desc (store w)) as [|r t]; [congruence|].
  reflexivity.
Qed.

Lemma export_formats_agree_sample :
  exists data : list (list (string * json)),
    data = map export_row (order_by_created_at_desc (store Sample.two_row_world)) /\
    List.length data = List.length (store Sample.two_row_world) /\
    export_data "json" Sample.two_row_world =
      (Ok (jsonify 200 (JList (map JDict data))), Sample.two_row_world) /\
    export_data "csv" Sample.two_row_world =
      (Ok {| status := 200; content_type := "text/csv";
             content := Csv data |}, Sample.two_row_world) /\
    export_data "pdf" Sample.two_row_world =
      (Ok {| status := 200; content_type := "application/pdf";
             content := Pdf (map JStr export_keys :: map (map snd) data) |},
       Sample.two_row_world).
Proof.
  apply (export_formats_agree Sample.two_row_world). discriminate.
Defined.

(** The reading routes read only: listing and exporting, in any format and
    whether they succeed or not, leave the world exactly as it was. *)
Theorem reading_routes_change_nothing :
  forall (format : string) (w : World),
    snd (get_records w) = w /\ snd (export_data format w) = w.
Proof.
  intros format w. split; [reflexivity|].
  unfold export_data, bind, query_all_desc, ret, lift.
  destruct (format =? "json")%string; [reflexivity|].
  destruct (format =? "csv")%string; [reflexivity|].
  destruct (format =? "pdf")%string; [|reflexivity].
  destruct (map export_row (order_by_created_at_desc (store w)));
    reflexivity.
Qed.

(** ** The places helper *)

Lemma firstn_min_length :
  forall (A : Type) (l : list A) n,
    firstn (Nat.min (List.length l) n) l = firstn n l.
Proof.
  intros A l n. destruct (Nat.le_ge_cases n (List.length l)) as [H|H].
  - rewrite Nat.min_r by exact H. reflexivity.
  - rewrite Nat.min_l by exact H.
    rewrite firstn_all. symmetry. apply firstn_all2. exact H.
Qed.

(** With a key configured the helper sends exactly one request, and when
    the provider answers with an object whose [results] is a list, it
    returns [{"results": ...}] holding the first [count] of them for a
    [count] that is not negative (never more than [count], all of them when
    there are fewer), and all but the last [-count] for a negative one. *)
Theorem places_are_truncated :
  forall env k lat lon count w,
    GOOGLE_MAPS_API_KEY env = Some k ->
    k <> "" ->
    exists url,
      sent (snd (get_google_maps_data env lat lon count w)) = sent w ++ [url] /\
      forall kvs l,
        http_json env (sent w) url = Ok (JDict kvs) ->
        dict_lookup "results" kvs = Some (JList l) ->
        exists kept,
          fst (get_google_maps_data env lat lon count w) =
            Ok (JDict [("results", JList kept)]) /\
          (0 <= count ->
           kept = firstn (Z.to_nat count) l /\
           Z.of_nat (List.length kept) <= count) /\
          (count < 0 ->
           kept = firstn (List.length l - Z.to_nat (- count)) l).
Proof.
  intros env k lat lon count w Hk Hne.
  unfold get_google_maps_data, no_maps_key. rewrite Hk.
  apply String.eqb_neq in Hne. rewrite Hne.
  unfold bind, requests_get_json, lift, ret.
  eexists. split.
  - destruct (http_json env (sent w) _) as [d|e]; [|reflexivity].
    destruct (py_contains "results" d) as [[|]|e]; try reflexivity.
    destruct (py_getitem d "results") as [v|e]; try reflexivity.
    destruct (py_slice_to v count); reflexivity.
  - intros kvs l Hhttp Hres. rewrite Hhttp.
    cbn [py_contains py_getitem]. rewrite Hres.
    cbn [py_slice_to fst]. eexists. split; [reflexivity|].
    unfold slice_stop. split.
    + intros Hc. destruct (count <? 0) eqn:E; [apply Z.ltb_lt in E; lia|].
      rewrite firstn_min_length. split; [reflexivity|].
      pose proof (firstn_le_length (Z.to_nat count) l). lia.
    + intros Hc. destruct (count <? 0) eqn:E; [|apply Z.ltb_ge in E; lia].
      f_equal. lia.
Qed.

Lemma places_are_truncated_paris :
  exists url,
    sent (snd (get_google_maps_data SampleMaps.env (Some Sample.lat_paris)
                 (Some Sample.lon_paris) 2 Sample.empty_world)) =
      sent Sample.empty_world ++ [url].
Proof.
  destruct (places_are_truncated SampleMaps.env "maps-key"
              (Some Sample.lat_paris) (Some Sample.lon_paris) 2
              Sample.empty_world eq_refl)
    as (url & Hsent & _); [discriminate|].
  exists url. exact Hsent.
Defined.

(** When the provider's object has no [results] key (an error payload),
    the helper returns [None] and raises nothing: the lookup goes on with
    [places] null. *)
Theorem places_without_results_is_none :
  forall env k lat lon count w,
    GOOGLE_MAPS_API_KEY env = Some k ->
    k <> "" ->
    exists url,
      sent (snd (get_google_maps_data env lat lon count w)) = sent w ++ [url] /\
      forall kvs,
        http_json env (sent w) url = Ok (JDict kvs) ->
        dict_lookup "results" kvs = None ->
        get_google_maps_data env lat lon count w =
          (Ok JNull,
           {| store := store w; sent := sent w ++ [url]; clock := clock w |}).
Proof.
  intros env k lat lon count w Hk Hne.
  unfold get_google_maps_data, no_maps_key. rewrite Hk.
  apply String.eqb_neq in Hne. rewrite Hne.
  unfold bind, requests_get_json, lift, ret.
  eexists. split.
  - destruct (http_json env (sent w) _) as [d|e]; [|reflexivity].
    destruct (py_contains "results" d) as [[|]|e]; try reflexivity.
    destruct (py_getitem d "results") as [v|e]; try reflexivity.
    destruct (py_slice_to v count); reflexivity.
  - intros kvs Hhttp Hres. rewrite Hhttp.
    cbn [py_contains]. rewrite Hres. reflexivity.
Qed.

Lemma places_without_results_is_none_denied :
  exists url,
    get_google_maps_data SampleDenied.env (Some Sample.lat_paris)
      (Some Sample.lon_paris) 5 Sample.one_row_world =
      (Ok JNull,
       {| store := store Sample.one_row_world;
          sent := sent Sample.one_row_world ++ [url];
          clock := clock Sample.one_row_world |}).
Proof.
  destruct (places_without_results_is_none SampleDenied.env "bad-key"
              (Some Sample.lat_paris) (Some Sample.lon_paris) 5
              Sample.one_row_world eq_refl)
    as (url & Hsent & Hnone); [discriminate|].
  exists url. apply (Hnone SampleDenied.denied); [|reflexivity].
  vm_compute in Hsent. injection Hsent as <-.
  reflexivity.
Defined.

(** ** The landing page *)

(** The flag the landing page is rendered with tells the truth about the
    places helper: it is false exactly when the helper, for every input,
    returns [None] without sending a request. *)
Theorem index_flag_matches_places_helper :
  forall env,
    snd (index env) = [("has_maps_api", JBool false)] <->
    (forall lat lon count w,
        get_google_maps_data env lat lon count w = (Ok JNull, w)).
Proof.
  intros env. unfold index. cbn [snd]. split.
  - intros H lat lon count w. unfold get_google_maps_data.
    destruct (no_maps_key env); [reflexivity|discriminate H].
  - intros H. unfold no_maps_key.
    destruct (GOOGLE_MAPS_API_KEY env) as [k|] eqn:Hk; [|reflexivity].
    destruct (k =? "")%string eqn:E; [reflexivity|].
    exfalso. apply String.eqb_neq in E.
    apply (places_requested_with_key env k None None 0
             {| store := []; sent := []; clock := 0 |} Hk E).
    rewrite H. reflexivity.
Qed.

(** ** Dates in the list *)

Lemma string_app_assoc :
  forall a b c : string, ((a ++ b) ++ c = a ++ (b ++ c))%string.
Proof.
  induction a as [|ch a IH]; intros b c; simpl; [reflexivity|].
  rewrite IH. reflexivity.
Qed.

(** The list shows each date in ISO-8601 form: [YYYY-MM-DDTHH:MM:SS],
    followed by a fraction only when the microseconds are not zero. *)
Theorem listed_date_is_iso :
  forall r : WeatherRecord,
    valid_datetime (date r) ->
    exists seconds fraction : string,
      py_getitem (record_json r) "date" =
        Ok (JStr (seconds ++ fraction)%string) /\
      matches iso_pattern seconds = true /\
      (microsecond (date r) = 0%nat -> fraction = "") /\
      (microsecond (date r) <> 0%nat ->
       fraction = ("." ++ zfill 6 (microsecond (date r)))%string).
Proof.
  intros r (Hy & Hm & Hd & Hh & Hmi & Hs & _).
  exists (zfill 4 (year (date r)) ++ "-" ++ zfill 2 (month (date r)) ++ "-" ++
          zfill 2 (day (date r)) ++ "T" ++ zfill 2 (hour (date r)) ++ ":" ++
          zfill 2 (minute (date r)) ++ ":" ++ zfill 2 (second (date r)))%string.
  exists (if (microsecond (date r) =? 0)%nat then ""
          else "." ++ zfill 6 (microsecond (date r)))%string.
  split.
  - cbn [record_json py_getitem dict_lookup String.eqb Ascii.eqb Bool.eqb].
    unfold isoformat. repeat rewrite string_app_assoc. reflexivity.
  - split.
    + change iso_pattern with
        ([Digit; Digit; Digit; Digit] ++ [Char "-"] ++ [Digit; Digit] ++
         [Char "-"] ++ [Digit; Digit] ++ [Char "T"] ++ [Digit; Digit] ++
         [Char ":"] ++ [Digit; Digit] ++ [Char ":"] ++ [Digit; Digit]).
      repeat (apply matches_app;
              [first [apply zfill4_shape; lia | apply zfill2_shape; lia
                     | reflexivity] |]).
      apply zfill2_shape; lia.
    + split.
      * intros ->. reflexivity.
      * intros Hne. apply Nat.eqb_neq in Hne. rewrite Hne. reflexivity.
Qed.

Lemma listed_date_is_iso_paris :
  exists seconds fraction : string,
    py_getitem (record_json paris_row) "date" =
      Ok (JStr (seconds ++ fraction)%string) /\
    matches iso_pattern seconds = true.
Proof.
  destruct (listed_date_is_iso paris_row)
    as (seconds & fraction & Hdate & Hshape & _).
  - unfold valid_datetime; cbn; lia.
  - exists seconds, fraction. split; assumption.
Defined.

(** ** Dates of the table

    The only dates that reach the table are clock readings, so the table
    holds valid dates as long as the clock gives valid ones. *)

Lemma get_weather_store :
  forall env data w,
    store (snd (get_weather env data w)) = store w \/
    exists r n,
      store (snd (get_weather env data w)) = store w ++ [r] /\
      date r = utcnow env n.
Proof.
  intros env data w.
  destruct (get_weather_cases env data w)
    as [(e0 & E & _) | [(E & _) | [(E & _) | [(e0 & w0 & E & Hs)
       | (cw & fc & pl & r & w0 & E & Hs & _ & _ & Hd & _)]]]];
    rewrite E; cbn [snd];
    try (left; reflexivity); [left; exact Hs|].
  right. exists r, (clock w). split; assumption.
Qed.

Lemma lookup_keeps_dates_valid :
  forall env data w,
    (forall n, valid_datetime (utcnow env n)) ->
    (forall r, In r (store w) -> valid_datetime (date r)) ->
    forall r, In r (store (snd (get_weather env data w))) ->
              valid_datetime (date r).
Proof.
  intros env data w Hclock Hw r Hr.
  destruct (get_weather_store env data w) as [E | (r0 & n & E & Hd)];
    rewrite E in Hr.
  - apply Hw. exact Hr.
  - apply in_app_or in Hr. destruct Hr as [Hr | [<- | []]].
    + apply Hw. exact Hr.
    + rewrite Hd. apply Hclock.
Qed.

Lemma update_keeps_dates_valid :
  forall env i data w,
    (forall r, In r (store w) -> valid_datetime (date r)) ->
    forall r, In r (store (snd (update_record env i data w))) ->
              valid_datetime (date r).
Proof.
  intros env i data w Hw r Hr.
  destruct (query_get i (store w)) as [r0|] eqn:Hq.
  - destruct (update_record_outcome env i data w r0 Hq)
      as (r' & [(e & E) | E] & Hfix & _); rewrite E in Hr; cbn [snd store] in Hr.
    + apply Hw. exact Hr.
    + unfold update_row in Hr. apply in_map_iff in Hr.
      destruct Hr as (x & Hx & Hin).
      destruct (id x =? id r'); subst r.
      * destruct Hfix as (_ & _ & _ & Hdate & _). rewrite Hdate.
        apply Hw. apply (query_get_In _ _ _ Hq).
      * apply Hw. exact Hin.
  - destruct (update_record_missing env i data w Hq) as [e E].
    rewrite E in Hr. apply Hw. exact Hr.
Qed.

Lemma delete_keeps_dates_valid :
  forall i w,
    (forall r, In r (store w) -> valid_datetime (date r)) ->
    forall r, In r (store (snd (delete_record i w))) ->
              valid_datetime (date r).
Proof.
  intros i w Hw r Hr.
  destruct (delete_record_store i w) as [E | E]; rewrite E in Hr.
  - apply Hw. exact Hr.
  - apply delete_row_ids in Hr. apply Hw. tauto.
Qed.

(** Only clock readings are ever stored as dates: if the clock gives valid
    dates and the table holds valid dates, it still does after any route. *)
Theorem routes_keep_dates_valid :
  forall env w,
    (forall n, valid_datetime (utcnow env n)) ->
    (forall r, In r (store w) -> valid_datetime (date r)) ->
    (forall data r, In r (store (snd (get_weather env data w))) ->
                    valid_datetime (date r)) /\
    (forall i data r, In r (store (snd (update_record env i data w))) ->
                      valid_datetime (date r)) /\
    (forall i r, In r (store (snd (delete_record i w))) ->
                 valid_datetime (date r)).
Proof.
  intros env w Hclock Hw. split; [|split].
  - intros data. apply lookup_keeps_dates_valid; assumption.
  - intros i data. apply update_keeps_dates_valid; assumption.
  - intros i. apply delete_keeps_dates_valid; assumption.
Qed.

Lemma routes_keep_dates_valid_sample :
  valid_datetime (date (with_description paris_row (Some "X"))).
Proof.
  assert (Hclock : forall n, valid_datetime (utcnow SampleMaps.env n)).
  { intros n. unfold valid_datetime.
    cbn [utcnow SampleMaps.env year month day hour minute second microsecond].
    pose proof (Nat.mod_upper_bound n 60). lia. }
  assert (Hrows : forall r, In r (store Sample.one_row_world) ->
                            valid_datetime (date r)).
  { intros r [<- | []]. unfold valid_datetime. cbn. lia. }
  destruct (routes_keep_dates_valid SampleMaps.env Sample.one_row_world
              Hclock Hrows) as (_ & Hupdate & _).
  apply (Hupdate 1 (JDict [("description", JStr "X")])).
  left. reflexivity.
Defined.
